(** * nmma.em.create_lightcurves: model selection, injection cache, aggregation

    A shallow embedding of [main] of [nmma/em/create_lightcurves.py].
    Python floats are binary64 and are embedded as Rocq's primitive floats;
    dictionaries are finite maps; exceptions are the [Err] side of a result
    type; the output directory and the objects reachable from the injection
    table are an explicit store threaded through the injection loop. *)

From Stdlib Require Import ZArith List Bool Ascii String Lia.
From Stdlib Require Import PrimFloat Uint63 FloatOps SpecFloat.
From Stdlib Require Import DecimalString DecimalPos DecimalZ.
From stdpp Require Import base option list strings gmap.

Local Open Scope string_scope.
Local Open Scope Z_scope.

(** ** Exceptions and the result type *)

Inductive exn : Type :=
| AssertionError (msg : string)
| KeyError (key : string)
| IndexError (msg : string)
| ValueError (msg : string)
| OverflowError (msg : string)
| ReferenceError (msg : string)
| JSONDecodeError (msg : string).

Inductive result (A : Type) : Type :=
| Ok (a : A)
| Err (e : exn).
Arguments Ok {A} a.
Arguments Err {A} e.

Definition rbind {A B} (m : result A) (k : A -> result B) : result B :=
  match m with
  | Ok a => k a
  | Err e => Err e
  end.

Definition rmap {A B} (f : A -> B) (r : result A) : result B :=
  match r with
  | Ok a => Ok (f a)
  | Err e => Err e
  end.

Declare Scope result_scope.
Delimit Scope result_scope with result.
Notation "'let*' x ':=' m 'in' k" := (rbind m (fun x => k))
  (at level 10, x pattern, m at level 100, k at level 200) : result_scope.
Local Open Scope result_scope.

Definition is_ok {A} (r : result A) : bool :=
  match r with Ok _ => true | Err _ => false end.

(** ** Command-line arguments ([argparse] namespace) *)

Record Args : Type := mkArgs {
  model : string;
  svd_path : option string;
  outdir : string;
  label : string;
  tmin : float;
  tmax : float;
  dt : float;
  svd_mag_ncoeff : Z;
  svd_lbol_ncoeff : Z;
  filters : string;
  grb_resolution : float;
  jet_type : Z;
  joint_light_curve : bool;
  interpolation_type : string;
  absolute : bool;
  plot : bool;
  ztf_sampling : bool;
  ztf_ToO : option string;
  rubin_ToO : bool;
  photometry_augmentation : bool
}.

(** ** The time grid: [np.arange(args.tmin, args.tmax + args.dt, args.dt)] *)

Module Numpy.

(** [ceil] of a binary64 value as an integer; [arange] refuses a length
    that is not finite. *)
Definition ceil_to_intp (x : float) : result Z :=
  match Prim2SF x with
  | S754_zero _ => Ok 0
  | S754_finite s m e =>
      let n := if s then Z.neg m else Z.pos m in
      Ok (if (0 <=? e) then n * 2 ^ e else - ((- n) / 2 ^ (- e)))
  | S754_infinity _ => Err (OverflowError "arange: cannot compute length")
  | S754_nan => Err (OverflowError "arange: cannot compute length")
  end.

(** [floor] of a finite binary64 value ([0] is returned for the values
    that have no floor; it is only used on finite quotients). *)
Definition floor_float (x : float) : Z :=
  match Prim2SF x with
  | S754_finite s m e =>
      let n := if s then Z.neg m else Z.pos m in
      if (0 <=? e) then n * 2 ^ e else n / 2 ^ (- e)
  | _ => 0
  end.

Definition float_of_index (i : nat) : float :=
  PrimFloat.of_uint63 (Uint63.of_Z (Z.of_nat i)).

(** The element [i] of an [arange]: the first two are stored as [start]
    and [start + step]; the others are filled as [start + i * delta]
    with [delta] read back from the first two. *)
Definition arange_item (start step : float) (i : nat) : float :=
  match i with
  | O => start
  | S O => PrimFloat.add start step
  | _ =>
      let delta := PrimFloat.sub (PrimFloat.add start step) start in
      PrimFloat.add start (PrimFloat.mul (float_of_index i) delta)
  end.

Definition arange (start stop step : float) : result (list float) :=
  let* len := ceil_to_intp (PrimFloat.div (PrimFloat.sub stop start) step) in
  Ok (map (arange_item start step) (seq 0 (Z.to_nat len))).

(** [np.linspace(start, stop, num)] with the endpoint included: the
    points are [i * step + start] and the last one is set to [stop]. *)
Definition linspace (start stop : float) (num : nat) : list float :=
  let div := (num - 1)%nat in
  let delta := PrimFloat.sub stop start in
  let step := PrimFloat.div delta (float_of_index div) in
  let scaled (i : nat) : float :=
    if (0 <? div)%nat then
      if PrimFloat.eqb step 0%float
      then PrimFloat.mul (PrimFloat.div (float_of_index i) (float_of_index div)) delta
      else PrimFloat.mul (float_of_index i) step
    else PrimFloat.mul (float_of_index i) delta in
  let y := map (fun i => PrimFloat.add (scaled i) start) (seq 0 num) in
  if (1 <? num)%nat then (removelast y ++ [stop])%list else y.

(** The order NumPy sorts floats by: [nan] after everything else. *)
Definition sort_le (a b : float) : bool :=
  PrimFloat.leb a b || PrimFloat.is_nan b.

(** Stable sort of keyed items (the keys in [sort_le] order). *)
Fixpoint insert_by {A} (key : A -> float) (x : A) (l : list A) : list A :=
  match l with
  | [] => [x]
  | y :: l' =>
      if sort_le (key y) (key x) then y :: insert_by key x l'
      else x :: l
  end.

Definition sort_by {A} (key : A -> float) (l : list A) : list A :=
  fold_left (fun acc x => insert_by key x acc) l [].

Definition sort (l : list float) : list float := sort_by (fun x => x) l.

(** [a.searchsorted(v, side)] on a sorted [a]: the number of elements
    before the insertion point. *)
Definition searchsorted_left (a : list float) (v : float) : nat :=
  length (List.filter (fun x => PrimFloat.ltb x v) a).

Definition searchsorted_right (a : list float) (v : float) : nat :=
  length (List.filter (fun x => PrimFloat.leb x v) a).

Fixpoint diff (l : list Z) : list Z :=
  match l with
  | a :: (b :: _) as l' => (b - a) :: diff l'
  | _ => []
  end.

(** [np.histogram(x, bins=bins)[0]] for an array of bin edges: the sorted
    data is searched for every edge, on the left for all edges but the
    last and on the right for the last, and the counts are the
    differences. *)
Definition histogram (x : list float) (bins : list float) : list Z :=
  let sa := sort x in
  let cum_n :=
    (map (fun e => Z.of_nat (searchsorted_left sa e)) (removelast bins)
     ++ match last bins with
        | Some e => [Z.of_nat (searchsorted_right sa e)]
        | None => []
        end)%list in
  diff cum_n.

(** [_lerp(a, b, t)] of the quantile code. *)
Definition lerp (a b t : float) : float :=
  let diff_b_a := PrimFloat.sub b a in
  if PrimFloat.leb 0x1p-1%float t
  then PrimFloat.sub b (PrimFloat.mul diff_b_a (PrimFloat.sub 1%float t))
  else PrimFloat.add a (PrimFloat.mul diff_b_a t).

(** [np.percentile] of a non-empty sorted sample, method "linear": the
    virtual index is [(n - 1) * q / 100]. *)
Definition percentile_sorted (arr : list float) (q : float) : float :=
  let n := length arr in
  let quantile := PrimFloat.div q 100%float in
  let virtual_index := PrimFloat.mul (float_of_index (n - 1)) quantile in
  if PrimFloat.leb (float_of_index (n - 1)) virtual_index then
    let top := nth (n - 1) arr PrimFloat.nan in
    lerp top top (PrimFloat.add virtual_index 1%float)
  else if PrimFloat.ltb virtual_index 0%float then
    let bottom := nth 0 arr PrimFloat.nan in
    lerp bottom bottom virtual_index
  else
    let previous_index := Z.to_nat (floor_float virtual_index) in
    let gamma := PrimFloat.sub virtual_index (float_of_index previous_index) in
    lerp (nth previous_index arr PrimFloat.nan)
         (nth (S previous_index) arr PrimFloat.nan) gamma.

(** [np.nanpercentile] of one column: the [nan] entries are removed; an
    all-[nan] column gives [nan]. *)
Definition nanpercentile_1d (col : list float) (q : float) : float :=
  let arr1d := List.filter (fun x => negb (PrimFloat.is_nan x)) col in
  match arr1d with
  | [] => PrimFloat.nan
  | _ => percentile_sorted (sort arr1d) q
  end.

(** [np.vstack]: the rows must have one length, and there must be one. *)
Definition vstack (rows : list (list float)) : result (list (list float)) :=
  match rows with
  | [] => Err (ValueError "need at least one array to concatenate")
  | r :: _ =>
      if forallb (fun r' => (length r' =? length r)%nat) rows then Ok rows
      else Err (ValueError "all the input array dimensions must match")
  end.

(** The transpose of a stacked matrix: its columns. *)
Definition transpose (m : list (list float)) : list (list float) :=
  match m with
  | [] => []
  | r :: _ =>
      map (fun j => map (fun r' => nth j r' PrimFloat.nan) m)
          (seq 0 (length r))
  end.

(** Column [k] of a two-dimensional array ([a[:, k]]). *)
Definition column (k : nat) (a : list (list float)) : result (list float) :=
  fold_right
    (fun row acc =>
       let* rest := acc in
       match nth_error row k with
       | Some v => Ok (v :: rest)
       | None => Err (IndexError "index is out of bounds for axis 1")
       end)
    (Ok []) a.

End Numpy.

(** ** [scipy.interpolate.interp1d(x, y, fill_value="extrapolate")] *)

Module Scipy.

(** The interpolant keeps the points sorted by [x] (a stable sort). *)
Definition interp1d (x y : list float) : result (list (float * float)) :=
  if negb (length x =? length y)%nat then
    Err (ValueError "x and y arrays must be equal in length along interpolation axis.")
  else if (length x =? 0)%nat then
    Err (ValueError "x and y arrays must have at least 1 entries")
  else Ok (Numpy.sort_by fst (combine x y)).

(** Python's indexing of a non-empty sequence by [i >= -1]. *)
Definition item (l : list float) (i : Z) : float :=
  if i <? 0 then nth (length l - 1) l PrimFloat.nan
  else nth (Z.to_nat i) l PrimFloat.nan.

(** [_call_linear]: the segment is found by [searchsorted], clipped to
    the first and the last segment, and its line is evaluated. *)
Definition call_linear (f : list (float * float)) (x_new : float) : float :=
  let xs := map fst f in
  let ys := map snd f in
  let n := Z.of_nat (length xs) in
  let idx := Z.of_nat (Numpy.searchsorted_left xs x_new) in
  let hi := Z.min (Z.max idx 1) (n - 1) in
  let lo := hi - 1 in
  let x_lo := item xs lo in
  let x_hi := item xs hi in
  let y_lo := item ys lo in
  let y_hi := item ys hi in
  let slope := PrimFloat.div (PrimFloat.sub y_hi y_lo) (PrimFloat.sub x_hi x_lo) in
  PrimFloat.add (PrimFloat.mul slope (PrimFloat.sub x_new x_lo)) y_lo.

Definition call (f : list (float * float)) (x_new : list float) : list float :=
  map (call_linear f) x_new.


End Scipy.

Definition sample_times (args : Args) : result (list float) :=
  Numpy.arange (tmin args) (PrimFloat.add (tmax args) (dt args)) (dt args).

(** The length the specification gives for the grid:
    [floor((t_max - t_min) / step) + 1]. *)
Definition spec_grid_length (t_min t_max step : float) : Z :=
  Numpy.floor_float (PrimFloat.div (PrimFloat.sub t_max t_min) step) + 1.

(** ** Light-curve models (classes of [nmma.em.model], as constructor calls) *)

Record KilonovaKwargs : Type := mkKilonovaKwargs {
  kn_model : string;
  kn_svd_path : option string;
  kn_mag_ncoeff : Z;
  kn_lbol_ncoeff : Z;
  kn_interpolation_type : string;
  kn_parameter_conversion : option string
}.

Record LightCurveKwargs : Type := mkLightCurveKwargs {
  lc_model : string;
  lc_sample_times : list float;
  lc_svd_path : option string;
  lc_mag_ncoeff : Z;
  lc_lbol_ncoeff : Z;
  lc_interpolation_type : string
}.

Inductive LightCurveModel : Type :=
| KilonovaGRBLightCurveModel
    (sample_times : list float) (kilonova_kwargs : KilonovaKwargs)
    (GRB_resolution : float) (jetType : Z)
| SupernovaGRBLightCurveModel
    (sample_times : list float) (GRB_resolution : float)
    (SNmodel : string) (jetType : Z)
| GRBLightCurveModel
    (sample_times : list float) (resolution : float) (jetType : Z)
| SupernovaLightCurveModel (sample_times : list float) (model : string)
| SVDLightCurveModel (light_curve_kwargs : LightCurveKwargs).

(** Python's [!=] on strings. *)
Definition str_ne (a b : string) : bool := negb (String.eqb a b).

(** Lines 198-250: the model is chosen from [args.model] and
    [args.joint_light_curve]. *)
Definition light_curve_model (args : Args) (sample_times : list float)
  : result LightCurveModel :=
  if joint_light_curve args then
    if str_ne (model args) "TrPi2018" then
      if str_ne (model args) "nugent-hyper" || str_ne (model args) "salt2" then
        let kilonova_kwargs :=
          {| kn_model := model args;
             kn_svd_path := svd_path args;
             kn_mag_ncoeff := svd_mag_ncoeff args;
             kn_lbol_ncoeff := svd_lbol_ncoeff args;
             kn_interpolation_type := interpolation_type args;
             kn_parameter_conversion := None |} in
        Ok (KilonovaGRBLightCurveModel sample_times kilonova_kwargs
              (grb_resolution args) (jet_type args))
      else
        Ok (SupernovaGRBLightCurveModel sample_times (grb_resolution args)
              (model args) (jet_type args))
    else Err (AssertionError "TrPi2018 is not a kilonova / supernova model")
  else
    if String.eqb (model args) "TrPi2018" then
      Ok (GRBLightCurveModel sample_times (grb_resolution args) (jet_type args))
    else if String.eqb (model args) "nugent-hyper"
            || String.eqb (model args) "salt2" then
      Ok (SupernovaLightCurveModel sample_times (model args))
    else
      Ok (SVDLightCurveModel
            {| lc_model := model args;
               lc_sample_times := sample_times;
               lc_svd_path := svd_path args;
               lc_mag_ncoeff := svd_mag_ncoeff args;
               lc_lbol_ncoeff := svd_lbol_ncoeff args;
               lc_interpolation_type := interpolation_type args |}).

(** The composition a constructed model stands for. *)
Inductive composition : Type :=
| kilonova | grb | supernova | kilonova_grb | supernova_grb.

Definition composition_of (m : LightCurveModel) : composition :=
  match m with
  | KilonovaGRBLightCurveModel _ _ _ _ => kilonova_grb
  | SupernovaGRBLightCurveModel _ _ _ _ => supernova_grb
  | GRBLightCurveModel _ _ _ => grb
  | SupernovaLightCurveModel _ _ => supernova
  | SVDLightCurveModel _ => kilonova
  end.

(** The grid a model was built on. *)
Definition grid_of (m : LightCurveModel) : list float :=
  match m with
  | KilonovaGRBLightCurveModel st _ _ _ => st
  | SupernovaGRBLightCurveModel st _ _ _ => st
  | GRBLightCurveModel st _ _ => st
  | SupernovaLightCurveModel st _ => st
  | SVDLightCurveModel kwargs => lc_sample_times kwargs
  end.

(** The command line's defaults, with the required options given. *)
Definition default_args (model outdir label : string) : Args :=
  {| model := model; svd_path := None; outdir := outdir; label := label;
     tmin := 0%float; tmax := 14%float; dt := 0x1.999999999999ap-4%float;
     svd_mag_ncoeff := 10; svd_lbol_ncoeff := 10;
     filters := "u,g,r,i,z,y,J,H,K";
     grb_resolution := 5%float; jet_type := 0;
     joint_light_curve := false; interpolation_type := "sklearn_gp";
     absolute := false; plot := false;
     ztf_sampling := false; ztf_ToO := None; rubin_ToO := false;
     photometry_augmentation := false |}.

Definition with_joint (args : Args) : Args :=
  {| model := model args; svd_path := svd_path args; outdir := outdir args;
     label := label args; tmin := tmin args; tmax := tmax args; dt := dt args;
     svd_mag_ncoeff := svd_mag_ncoeff args;
     svd_lbol_ncoeff := svd_lbol_ncoeff args; filters := filters args;
     grb_resolution := grb_resolution args; jet_type := jet_type args;
     joint_light_curve := true;
     interpolation_type := interpolation_type args;
     absolute := absolute args; plot := plot args;
     ztf_sampling := ztf_sampling args; ztf_ToO := ztf_ToO args;
     rubin_ToO := rubin_ToO args;
     photometry_augmentation := photometry_augmentation args |}.

Definition with_grid (args : Args) (t_min t_max step : float) : Args :=
  {| model := model args; svd_path := svd_path args; outdir := outdir args;
     label := label args; tmin := t_min; tmax := t_max; dt := step;
     svd_mag_ncoeff := svd_mag_ncoeff args;
     svd_lbol_ncoeff := svd_lbol_ncoeff args; filters := filters args;
     grb_resolution := grb_resolution args; jet_type := jet_type args;
     joint_light_curve := joint_light_curve args;
     interpolation_type := interpolation_type args;
     absolute := absolute args; plot := plot args;
     ztf_sampling := ztf_sampling args; ztf_ToO := ztf_ToO args;
     rubin_ToO := rubin_ToO args;
     photometry_augmentation := photometry_augmentation args |}.

Definition with_flags (args : Args) (sampling : bool) (too : option string)
    (rubin augmentation : bool) : Args :=
  {| model := model args; svd_path := svd_path args; outdir := outdir args;
     label := label args; tmin := tmin args; tmax := tmax args;
     dt := dt args; svd_mag_ncoeff := svd_mag_ncoeff args;
     svd_lbol_ncoeff := svd_lbol_ncoeff args; filters := filters args;
     grb_resolution := grb_resolution args; jet_type := jet_type args;
     joint_light_curve := joint_light_curve args;
     interpolation_type := interpolation_type args;
     absolute := absolute args; plot := plot args;
     ztf_sampling := sampling; ztf_ToO := too; rubin_ToO := rubin;
     photometry_augmentation := augmentation |}.

(** ** Light-curve results

    [create_light_curve_data] hands back a dict from filter name to a
    two-dimensional array whose rows start with the time and the magnitude;
    a result read back from its artifact holds nested lists instead. *)

Inductive table (num : Type) : Type :=
| NdArray (rows : list (list num))
| NestedList (rows : list (list num)).
Arguments NdArray {num} rows.
Arguments NestedList {num} rows.

Definition rows_of {num} (t : table num) : list (list num) :=
  match t with
  | NdArray rows => rows
  | NestedList rows => rows
  end.

(** [ndarray.tolist()], which is what the encoder writes for an array. *)
Definition tolist {num} (t : table num) : table num := NestedList (rows_of t).

(** The values of a result: per filter, the rows of numbers. *)
Definition values {num} (r : gmap string (table num))
  : gmap string (list (list num)) := rows_of <$> r.

Abbreviation LightCurveResult num := (gmap string (table num)).

(** [mag_ds]: a dict in insertion order, from injection index to result. *)
Abbreviation ResultCollection num := (list (Z * gmap string (table num))).

Fixpoint dict_set {V} (d : list (Z * V)) (k : Z) (v : V) : list (Z * V) :=
  match d with
  | [] => [(k, v)]
  | (k', v') :: d' =>
      if (k' =? k)%Z then (k, v) :: d' else (k', v') :: dict_set d' k v
  end.

Fixpoint dict_get {V} (d : list (Z * V)) (k : Z) : option V :=
  match d with
  | [] => None
  | (k', v') :: d' => if (k' =? k)%Z then Some v' else dict_get d' k
  end.

(** ** The aggregation of the plot (lines 316-373) *)

Module Aggregation.

(** Python's truth value of an optional string. *)
Definition truthy (o : option string) : bool :=
  match o with
  | Some s => negb (String.eqb s "")
  | None => false
  end.

(** [ztf_sampling or ztf_ToO or rubin_ToO or photometry_augmentation],
    the attributes read through [check_default_attr], which gives the
    attribute of [args] as all four are defined by the parser. *)
Definition resampled (args : Args) : bool :=
  ztf_sampling args || truthy (ztf_ToO args) || rubin_ToO args
  || photometry_augmentation args.

(** [np.array(mag_ds[key][filt])]: nested lists with no row make an
    array of one dimension, which has no column. *)
Definition np_array (t : table float) : result (list (list float)) :=
  match t with
  | NestedList [] => Err (IndexError "too many indices for array")
  | _ => Ok (rows_of t)
  end.

(** One row of [data_out] (lines 340-347). *)
Definition data_out_row (args : Args) (sample_times : list float)
    (result_of_key : gmap string (table float)) (filt : string)
  : result (list float) :=
  match result_of_key !! filt with
  | None => Err (KeyError filt)
  | Some t =>
      let* data_set := np_array t in
      if resampled args then
        let* x := Numpy.column 0 data_set in
        let* y := Numpy.column 1 data_set in
        let* f := Scipy.interp1d x y in
        Ok (Scipy.call f sample_times)
      else Numpy.column 1 data_set
  end.

Fixpoint data_out_rows (args : Args) (sample_times : list float)
    (mag_ds : ResultCollection float) (filt : string)
  : result (list (list float)) :=
  match mag_ds with
  | [] => Ok []
  | (_, r) :: rest =>
      let* row := data_out_row args sample_times r filt in
      let* rows := data_out_rows args sample_times rest filt in
      Ok (row :: rows)
  end.

Definition data_out (args : Args) (sample_times : list float)
    (mag_ds : ResultCollection float) (filt : string)
  : result (list (list float)) :=
  let* rows := data_out_rows args sample_times mag_ds filt in
  Numpy.vstack rows.

Definition bins : list float := Numpy.linspace (-20)%float 1%float 50.

Definition return_hist (x : list float) : list Z := Numpy.histogram x bins.

(** [np.apply_along_axis(return_hist, -1, data_out.T)]: one histogram per
    time column. *)
Definition hist (data_out : list (list float)) : list (list Z) :=
  map return_hist (Numpy.transpose data_out).

(** [hist.astype(np.float64)] with the empty bins set to [nan]. *)
Definition hist_shown (h : list (list Z)) : list (list float) :=
  map (map (fun c => if (c =? 0)%Z then PrimFloat.nan
                     else PrimFloat.of_uint63 (Uint63.of_Z c))) h.

(** [np.nanpercentile(data_out, q, axis=0)]. *)
Definition nanpercentile (data_out : list (list float)) (q : float)
  : list float :=
  map (fun col => Numpy.nanpercentile_1d col q) (Numpy.transpose data_out).

(** The bins (by position) whose half-open interval holds [v]; the last
    bin is closed on the right. *)
Definition bins_containing (v : float) : list nat :=
  let n := length bins in
  List.filter (fun i =>
            PrimFloat.leb (nth i bins PrimFloat.nan) v
            && (if (S (S i) =? n)%nat
                then PrimFloat.leb v (nth (S i) bins PrimFloat.nan)
                else PrimFloat.ltb v (nth (S i) bins PrimFloat.nan)))
         (seq 0 (n - 1)).

End Aggregation.

(** ** The scenarios of the specification's tests *)

(** The series of the extrapolation scenario: recorded at the grid times
    1 and 2 only, with magnitudes -15 and -16. *)
Definition two_of_five : gmap string (table float) :=
  {[ "g" := NdArray [[1%float; (-15)%float]; [2%float; (-16)%float]] ]}.

Definition five_times : list float :=
  [0%float; 1%float; 2%float; 3%float; 4%float].

(** A series that is constant at magnitude [m] on the grid [ts]. *)
Definition constant_series (ts : list float) (m : float) : table float :=
  NdArray (map (fun t => [t; m]) ts).

(** The three injections of the aggregation scenario, for filter "g". *)
Definition three_injections (ts : list float) : ResultCollection float :=
  dict_set
    (dict_set
       (dict_set [] 0 {[ "g" := constant_series ts (-15)%float ]})
       1 {[ "g" := constant_series ts (-16)%float ]})
    2 {[ "g" := constant_series ts (-17)%float ]}.

Definition count_in_bin (i : nat) (h : list Z) : Z := nth i h 0.

(** ** The artifact text: [json.dump(data, outfile, cls=NumpyEncoder)] and
    [json.loads]

    The encoder emits a stream of chunks; the decoder is a scanner over the
    characters followed by the construction of the Python value. Both are
    given for documents of the shape of a light-curve result: an object
    from filter name to a list of rows of numbers. The text of a number is
    the business of the number type ([float.__repr__] and [float] for a
    binary64 value, the decimal digits for an [int]); it is a parameter. *)

Module Json.

Local Open Scope char_scope.
Local Open Scope list_scope.

Definition dquote : ascii := "034".
Definition backslash : ascii := "092".

Inductive token : Type :=
| TLBrace | TRBrace | TLBracket | TRBracket | TComma | TColon
| TString (s : string)
| TNumber (s : string).

Definition hex_digit (n : N) : ascii :=
  nth (N.to_nat n)
      ["0"; "1"; "2"; "3"; "4"; "5"; "6"; "7";
       "8"; "9"; "a"; "b"; "c"; "d"; "e"; "f"] "0".

Definition hex_value (c : ascii) : option N :=
  let n := N_of_ascii c in
  if ((48 <=? n) && (n <=? 57))%N then Some (n - 48)%N
  else if ((97 <=? n) && (n <=? 102))%N then Some (n - 87)%N
  else if ((65 <=? n) && (n <=? 70))%N then Some (n - 55)%N
  else None.

(** [py_encode_basestring_ascii] on one character (a code point below
    256): the short escapes, [\u00xx] outside the printable ASCII range,
    the character itself otherwise. *)
Definition escape (c : ascii) : list ascii :=
  if Ascii.eqb c dquote then [backslash; dquote]
  else if Ascii.eqb c backslash then [backslash; backslash]
  else if Ascii.eqb c "010" then [backslash; "n"]
  else if Ascii.eqb c "013" then [backslash; "r"]
  else if Ascii.eqb c "009" then [backslash; "t"]
  else if Ascii.eqb c "008" then [backslash; "b"]
  else if Ascii.eqb c "012" then [backslash; "f"]
  else
    let n := N_of_ascii c in
    if ((n <? 32) || (126 <? n))%N then
      [backslash; "u"; "0"; "0"; hex_digit (n / 16); hex_digit (n mod 16)]
    else [c].

Definition encode_string (s : string) : list ascii :=
  dquote :: flat_map escape (list_ascii_of_string s) ++ [dquote].

(** The chunks of the encoder, with the default separators. *)
Definition render_token (t : token) : list ascii :=
  match t with
  | TLBrace => ["{"]
  | TRBrace => ["}"]
  | TLBracket => ["["]
  | TRBracket => ["]"]
  | TComma => [","; " "]
  | TColon => [":"; " "]
  | TString s => encode_string s
  | TNumber s => list_ascii_of_string s
  end.

Definition render (toks : list token) : list ascii :=
  flat_map render_token toks.

(** *** The scanner *)

Definition is_whitespace (c : ascii) : bool :=
  Ascii.eqb c " " || Ascii.eqb c "009" || Ascii.eqb c "010"
  || Ascii.eqb c "013".

(** The characters of a number or of one of the constants [NaN],
    [Infinity], [-Infinity]. *)
Definition is_number_char (c : ascii) : bool :=
  let n := N_of_ascii c in
  ((48 <=? n) && (n <=? 57))%N
  || ((65 <=? n) && (n <=? 90))%N
  || ((97 <=? n) && (n <=? 122))%N
  || Ascii.eqb c "+" || Ascii.eqb c "-" || Ascii.eqb c ".".

Inductive lex_state : Type :=
| LDefault
| LNumber (acc : list ascii)
| LString (acc : list ascii)
| LEscape (acc : list ascii)
| LUnicode (acc : list ascii) (k : nat) (v : N).

Definition lex_default (c : ascii) : option (lex_state * list token) :=
  if is_whitespace c then Some (LDefault, [])
  else if Ascii.eqb c "{" then Some (LDefault, [TLBrace])
  else if Ascii.eqb c "}" then Some (LDefault, [TRBrace])
  else if Ascii.eqb c "[" then Some (LDefault, [TLBracket])
  else if Ascii.eqb c "]" then Some (LDefault, [TRBracket])
  else if Ascii.eqb c "," then Some (LDefault, [TComma])
  else if Ascii.eqb c ":" then Some (LDefault, [TColon])
  else if Ascii.eqb c dquote then Some (LString [], [])
  else if is_number_char c then Some (LNumber [c], [])
  else None.

Definition unescape (c : ascii) : option ascii :=
  if Ascii.eqb c dquote then Some dquote
  else if Ascii.eqb c backslash then Some backslash
  else if Ascii.eqb c "/" then Some "/"
  else if Ascii.eqb c "n" then Some "010"
  else if Ascii.eqb c "r" then Some "013"
  else if Ascii.eqb c "t" then Some "009"
  else if Ascii.eqb c "b" then Some "008"
  else if Ascii.eqb c "f" then Some "012"
  else None.

Definition lex_step (st : lex_state) (c : ascii)
  : option (lex_state * list token) :=
  match st with
  | LDefault => lex_default c
  | LNumber acc =>
      if is_number_char c then Some (LNumber (acc ++ [c]), [])
      else
        match lex_default c with
        | Some (st', out) =>
            Some (st', TNumber (string_of_list_ascii acc) :: out)
        | None => None
        end
  | LString acc =>
      if Ascii.eqb c dquote
      then Some (LDefault, [TString (string_of_list_ascii acc)])
      else if Ascii.eqb c backslash then Some (LEscape acc, [])
      else if (N_of_ascii c <? 32)%N then None
      else Some (LString (acc ++ [c]), [])
  | LEscape acc =>
      if Ascii.eqb c "u" then Some (LUnicode acc 0 0%N, [])
      else
        match unescape c with
        | Some c' => Some (LString (acc ++ [c']), [])
        | None => None
        end
  | LUnicode acc k v =>
      match hex_value c with
      | Some h =>
          let v' := (v * 16 + h)%N in
          if (k =? 3)%nat then
            if (v' <? 256)%N
            then Some (LString (acc ++ [ascii_of_N v']), [])
            else None
          else Some (LUnicode acc (S k) v', [])
      | None => None
      end
  end.

(** The tokens a step gives come before those of the rest. *)
Definition emit (out : list token) (rest : option (list token))
  : option (list token) :=
  match out with
  | [] => rest
  | _ => option_map (app out) rest
  end.

Fixpoint lex (st : lex_state) (s : list ascii) : option (list token) :=
  match s with
  | [] =>
      match st with
      | LDefault => Some []
      | LNumber acc => Some [TNumber (string_of_list_ascii acc)]
      | _ => None
      end
  | c :: s' =>
      match lex_step st c with
      | Some (st', out) => emit out (lex st' s')
      | None => None
      end
  end.

(** *** What the scanner reads back *)

(** A number's text: not empty, and of number characters only. *)
Definition number_text_ok (s : string) : bool :=
  negb (String.eqb s "")
  && forallb is_number_char (list_ascii_of_string s).

Definition closes_number (t : token) : bool :=
  match t with
  | TComma | TRBracket | TRBrace => true
  | _ => false
  end.

(** Token streams that the scanner reads back: a number is followed by
    a comma or a closing bracket (or by nothing). *)
Fixpoint lexable (toks : list token) : bool :=
  match toks with
  | [] => true
  | TNumber s :: rest =>
      number_text_ok s
      && match rest with
         | t :: _ => closes_number t
         | [] => true
         end
      && lexable rest
  | _ :: rest => lexable rest
  end.

End Json.

(** Modelled from the spec: [NumpyEncoder] of [nmma/em/utils.py] is not
    among the sources; it is the "custom encoder ... required to serialize
    numeric array types losslessly to nested JSON lists", that is, its
    [default] turns an array into [array.tolist()]. *)
Definition NumpyEncoder_default {num} (t : table num) : table num := tolist t.

Section JsonCodec.

Context {num : Type}.

(** The text of a number, and the number of a text. *)
Variable num_repr : num -> string.
Variable num_parse : string -> option num.

Import Json.

(** *** The encoder's chunks for a result; [k] is what follows. *)

Fixpoint tokens_numbers_tail (row : list num) (k : list token)
  : list token :=
  match row with
  | [] => TRBracket :: k
  | x :: row' => TComma :: TNumber (num_repr x) :: tokens_numbers_tail row' k
  end.

Definition tokens_row (row : list num) (k : list token) : list token :=
  TLBracket ::
    match row with
    | [] => TRBracket :: k
    | x :: row' => TNumber (num_repr x) :: tokens_numbers_tail row' k
    end.

Fixpoint tokens_rows_tail (rows : list (list num)) (k : list token)
  : list token :=
  match rows with
  | [] => TRBracket :: k
  | r :: rows' => TComma :: tokens_row r (tokens_rows_tail rows' k)
  end.

Definition tokens_rows (rows : list (list num)) (k : list token)
  : list token :=
  TLBracket ::
    match rows with
    | [] => TRBracket :: k
    | r :: rows' => tokens_row r (tokens_rows_tail rows' k)
    end.

(** A list is written as it is, an array through the encoder's
    [default]. *)
Definition tokens_table (t : table num) (k : list token) : list token :=
  match t with
  | NestedList rows => tokens_rows rows k
  | NdArray _ => tokens_rows (rows_of (NumpyEncoder_default t)) k
  end.

Definition tokens_item (kv : string * table num) (k : list token)
  : list token :=
  TString (fst kv) :: TColon :: tokens_table (snd kv) k.

Fixpoint tokens_items_tail (items : list (string * table num))
    (k : list token) : list token :=
  match items with
  | [] => TRBrace :: k
  | kv :: items' => TComma :: tokens_item kv (tokens_items_tail items' k)
  end.

Definition tokens_object (items : list (string * table num))
  : list token :=
  TLBrace ::
    match items with
    | [] => [TRBrace]
    | kv :: items' => tokens_item kv (tokens_items_tail items' [])
    end.

(** [json.dumps(data, cls=NumpyEncoder)]. *)
Definition dumps (data : gmap string (table num)) : string :=
  string_of_list_ascii (render (tokens_object (map_to_list data))).

(** *** The decoder, on the scanned tokens

    The states say what has been read: [obj] the items of the object so
    far, [key] the key of the item being read, [rows] its rows so far,
    [row] the numbers of the row being read. *)

Inductive parse_state : Type :=
| PStart
| PObjectOpen
| PKey (obj : list (string * list (list num)))
| PColon (obj : list (string * list (list num))) (key : string)
| PValue (obj : list (string * list (list num))) (key : string)
| PTableOpen (obj : list (string * list (list num))) (key : string)
| PRow (obj : list (string * list (list num))) (key : string)
       (rows : list (list num))
| PRowOpen (obj : list (string * list (list num))) (key : string)
           (rows : list (list num))
| PNumber (obj : list (string * list (list num))) (key : string)
          (rows : list (list num)) (row : list num)
| PAfterNumber (obj : list (string * list (list num))) (key : string)
               (rows : list (list num)) (row : list num)
| PAfterRow (obj : list (string * list (list num))) (key : string)
            (rows : list (list num))
| PAfterValue (obj : list (string * list (list num)))
| PDone (obj : list (string * list (list num))).

Definition parse_number (s : string) (k : num -> parse_state)
  : option parse_state :=
  match num_parse s with
  | Some x => Some (k x)
  | None => None
  end.

Definition parse_step (st : parse_state) (t : token) : option parse_state :=
  match st, t with
  | PStart, TLBrace => Some PObjectOpen
  | PObjectOpen, TRBrace => Some (PDone [])
  | PObjectOpen, TString key => Some (PColon [] key)
  | PKey obj, TString key => Some (PColon obj key)
  | PColon obj key, TColon => Some (PValue obj key)
  | PValue obj key, TLBracket => Some (PTableOpen obj key)
  | PTableOpen obj key, TRBracket => Some (PAfterValue (obj ++ [(key, [])]))
  | PTableOpen obj key, TLBracket => Some (PRowOpen obj key [])
  | PRow obj key rows, TLBracket => Some (PRowOpen obj key rows)
  | PRowOpen obj key rows, TRBracket => Some (PAfterRow obj key (rows ++ [[]]))
  | PRowOpen obj key rows, TNumber s =>
      parse_number s (fun x => PAfterNumber obj key rows [x])
  | PNumber obj key rows row, TNumber s =>
      parse_number s (fun x => PAfterNumber obj key rows (row ++ [x]))
  | PAfterNumber obj key rows row, TComma => Some (PNumber obj key rows row)
  | PAfterNumber obj key rows row, TRBracket =>
      Some (PAfterRow obj key (rows ++ [row]))
  | PAfterRow obj key rows, TComma => Some (PRow obj key rows)
  | PAfterRow obj key rows, TRBracket =>
      Some (PAfterValue (obj ++ [(key, rows)]))
  | PAfterValue obj, TComma => Some (PKey obj)
  | PAfterValue obj, TRBrace => Some (PDone obj)
  | _, _ => None
  end.

Fixpoint parse (st : parse_state) (toks : list token)
  : option (list (string * list (list num))) :=
  match toks with
  | [] =>
      match st with
      | PDone obj => Some obj
      | _ => None
      end
  | t :: toks' =>
      match parse_step st t with
      | Some st' => parse st' toks'
      | None => None
      end
  end.

(** The dict of the decoded object: the items are stored in the order
    read, a later key replacing an earlier equal one. *)
Definition dict_of_items (obj : list (string * list (list num)))
  : gmap string (table num) :=
  fold_left (fun d kv => <[fst kv := NestedList (snd kv)]> d) obj ∅.

(** [json.loads(text)]. *)
Definition loads (text : string) : result (gmap string (table num)) :=
  match lex LDefault (list_ascii_of_string text) with
  | Some toks =>
      match parse PStart toks with
      | Some obj => Ok (dict_of_items obj)
      | None => Err (JSONDecodeError "Expecting value")
      end
  | None => Err (JSONDecodeError "Expecting value")
  end.

(** An item as the decoder gives it. *)
Definition decoded (kv : string * table num) : string * list (list num) :=
  (fst kv, rows_of (snd kv)).

End JsonCodec.

(** *** Integers as numbers: the decimal digits (also [%d] in a format) *)

Definition int_repr (z : Z) : string := NilZero.string_of_int (Z.to_int z).

Definition int_parse (s : string) : option Z :=
  option_map Z.of_int (NilZero.int_of_string s).

(** ** The injection loop (lines 252-298) *)

(** [args] as [create_light_curve_data] receives it, with the attributes
    set on lines 255-265. *)
Record InjectionArgs : Type := mkInjectionArgs {
  base : Args;
  kilonova_tmin : float;
  kilonova_tmax : float;
  kilonova_tstep : float;
  kilonova_injection_model : string;
  kilonova_injection_svd : option string;
  injection_svd_mag_ncoeff : Z;
  injection_svd_lbol_ncoeff : Z;
  kilonova_error : Z
}.

Definition injection_args (args : Args) : InjectionArgs :=
  {| base := args;
     kilonova_tmin := tmin args;
     kilonova_tmax := tmax args;
     kilonova_tstep := dt args;
     kilonova_injection_model := model args;
     kilonova_injection_svd := svd_path args;
     injection_svd_mag_ncoeff := svd_mag_ncoeff args;
     injection_svd_lbol_ncoeff := svd_lbol_ncoeff args;
     kilonova_error := 0 |}.

(** [os.path.join(a, b)] for a relative [b]. *)
Definition path_join (a b : string) : string :=
  if String.eqb a "" then b
  else
    match String.get (String.length a - 1) a with
    | Some "/"%char => a ++ b
    | _ => a ++ "/" ++ b
    end.

(** [os.path.join(args.outdir, "%d.dat" % index)]. *)
Definition injection_outfile (args : InjectionArgs) (index : Z) : string :=
  path_join (outdir (base args)) (int_repr index ++ ".dat").

(** Objects are named by their addresses. *)
Abbreviation loc := positive.

(** What the loop reads and writes: the objects that hold parameters (the
    rows of the injection table and the dicts made of them), the files of
    the output directory, the calls of [create_light_curve_data] (by the
    parameters passed) and the lines printed. *)
Record world (scalar : Type) : Type := mkWorld {
  heap : gmap loc (gmap string scalar);
  files : gmap string string;
  synth_calls : list (gmap string scalar);
  stdout : list string
}.
Arguments mkWorld {scalar} heap files synth_calls stdout.
Arguments heap {scalar} w.
Arguments files {scalar} w.
Arguments synth_calls {scalar} w.
Arguments stdout {scalar} w.

(** [try: body except KeyError: handler]. *)
Definition try_except_KeyError {A} (body handler : result A) : result A :=
  match body with
  | Err (KeyError _) => handler
  | _ => body
  end.

(** [d[key]]. *)
Definition getitem {V} (d : gmap string V) (key : string) : result V :=
  match d !! key with
  | Some v => Ok v
  | None => Err (KeyError key)
  end.

Section Injections.

Context {num scalar : Type}.

(** [time.Time(v, format="gps").mjd] of astropy. *)
Variable gps_to_mjd : scalar -> scalar.

(** [create_light_curve_data(injection_parameters, args, doAbsolute,
    light_curve_model)] of [nmma.em.injection]: the data or the exception
    raised, and the dict of parameters as the call leaves it. *)
Variable create_light_curve_data :
  gmap string scalar -> InjectionArgs -> bool -> LightCurveModel ->
  result (gmap string (table num)) * gmap string scalar.

Variable num_repr : num -> string.
Variable num_parse : string -> option num.

(** Lines 279-283. *)
Definition trigger_time (injection_parameters : gmap string scalar)
  : result scalar :=
  let* tc_gps :=
    try_except_KeyError
      (getitem injection_parameters "geocent_time_x")
      (getitem injection_parameters "geocent_time") in
  Ok (gps_to_mjd tc_gps).

(** The body of the loop, for the row [row] of the table. *)
Definition iteration (args : InjectionArgs)
    (light_curve_model : LightCurveModel) (w : world scalar)
    (mag_ds : ResultCollection num) (index : Z) (row : loc)
  : world scalar * result (ResultCollection num) :=
  match files w !! injection_outfile args index with
  | Some text =>
      (w, let* data := loads num_parse text in
          Ok (dict_set mag_ds index data))
  | None =>
      match heap w !! row with
      | None =>
          (w, Err (ReferenceError "the row is not an object of the table"))
      | Some series =>
          (* injection_parameters = row.to_dict() *)
          let injection_parameters := fresh (dom (heap w)) in
          let w1 :=
            mkWorld (<[injection_parameters := series]> (heap w))
                    (files w) (synth_calls w) (stdout w) in
          match trigger_time series with
          | Err e => (w1, Err e)
          | Ok t =>
              let passed := <["kilonova_trigger_time" := t]> series in
              let '(data, after) :=
                create_light_curve_data passed args (absolute (base args))
                  light_curve_model in
              let w2 :=
                mkWorld (<[injection_parameters := after]> (heap w))
                        (files w) (synth_calls w ++ [passed]) (stdout w) in
              match data with
              | Err e => (w2, Err e)
              | Ok data =>
                  (mkWorld (heap w2)
                     (<[injection_outfile args index
                        := dumps num_repr data]> (files w2))
                     (synth_calls w2)
                     (stdout w2 ++ ["Injection generated"]),
                   Ok (dict_set mag_ds index data))
              end
          end
      end
  end.

(** [for index, row in injection_df.iterrows()]; an exception ends it. *)
Fixpoint injections (args : InjectionArgs)
    (light_curve_model : LightCurveModel) (w : world scalar)
    (mag_ds : ResultCollection num) (injection_df : list (Z * loc))
  : world scalar * result (ResultCollection num) :=
  match injection_df with
  | [] => (w, Ok mag_ds)
  | (index, row) :: rest =>
      match iteration args light_curve_model w mag_ds index row with
      | (w', Ok mag_ds') => injections args light_curve_model w' mag_ds' rest
      | (w', Err e) => (w', Err e)
      end
  end.

(** [main] up to the plot. *)
Definition main (args : Args) (w : world scalar)
    (injection_df : list (Z * loc))
  : world scalar * result (ResultCollection num) :=
  match sample_times args with
  | Err e => (w, Err e)
  | Ok st =>
      match light_curve_model args st with
      | Err e => (w, Err e)
      | Ok m => injections (injection_args args) m w [] injection_df
      end
  end.

End Injections.

(** What the artifact of an index holds, when it is there and can be
    read. *)
Definition cached {num scalar} (num_parse : string -> option num)
    (args : InjectionArgs) (w : world scalar) (index : Z)
  : option (gmap string (table num)) :=
  match files w !! injection_outfile args index with
  | Some text =>
      match loads num_parse text with
      | Ok data => Some data
      | Err _ => None
      end
  | None => None
  end.

(** ** A run on a small table, with integers for the numbers *)

Module Example.

(** One result for filter "g", as an array. *)
Definition data : gmap string (table Z) :=
  {[ "g" := NdArray [[0; -16]; [1; -17]] ]}.

(** A synthesis that gives [data] and leaves its parameters alone. *)
Definition synthesis (injection_parameters : gmap string Z)
    (args : InjectionArgs) (doAbsolute : bool) (m : LightCurveModel)
  : result (gmap string (table Z)) * gmap string Z :=
  (Ok data, injection_parameters).

(** Seconds to days. *)
Definition to_mjd (gps : Z) : Z := gps / 86400.

Definition args : Args := default_args "Bu2019lm" "out" "run".

Definition model : LightCurveModel :=
  SVDLightCurveModel
    {| lc_model := "Bu2019lm"; lc_sample_times := [];
       lc_svd_path := None; lc_mag_ncoeff := 10; lc_lbol_ncoeff := 10;
       lc_interpolation_type := "sklearn_gp" |}.

Definition row_with_time : gmap string Z :=
  {[ "geocent_time" := 1264316116; "luminosity_distance" := 40 ]}.

Definition row_without_time : gmap string Z :=
  {[ "luminosity_distance" := 40 ]}.

(** A table of one row, at address 1, and an empty output directory. *)
Definition start (row : gmap string Z) : world Z :=
  mkWorld {[ 1%positive := row ]} ∅ [] [].

Definition run1 (w : world Z) : world Z * result (ResultCollection Z) :=
  iteration to_mjd synthesis int_repr int_parse (injection_args args)
    model w [] 7 1%positive.

End Example.

(** ** Runs that find artifacts of an earlier run *)

Module Rerun.

(** The output directory holds the artifact of index 7, with no filter. *)
Definition resumed : world Z :=
  mkWorld {[ 1%positive := Example.row_with_time ]}
          {[ "out/7.dat" := "{}" ]} [] [].

(** The artifact of index 7 is an empty file. *)
Definition broken : world Z :=
  mkWorld {[ 1%positive := Example.row_with_time ]}
          {[ "out/7.dat" := "" ]} [] [].

Definition table : list (Z * loc) := [(7, 1%positive)].

Definition run (w : world Z) : world Z * result (ResultCollection Z) :=
  injections Example.to_mjd Example.synthesis int_repr int_parse
    (injection_args Example.args) Example.model w [] table.

End Rerun.

(** * Properties *)

(** ** Model selection *)

Lemma supernova_guard_always_true (m : string) :
  str_ne m "nugent-hyper" || str_ne m "salt2" = true.
Proof.
  unfold str_ne.
  destruct (String.eqb_spec m "nugent-hyper") as [-> | _]; reflexivity.
Qed.

Lemma str_ne_true (a b : string) : a <> b -> str_ne a b = true.
Proof.
  intros Hne. unfold str_ne.
  destruct (String.eqb_spec a b); [contradiction | reflexivity].
Qed.

(** C1: in joint mode the supernova template names do not reach the
    supernova+GRB composite: for "salt2" and for "nugent-hyper" the model
    built is the kilonova+GRB composite, with the template name as the
    kilonova model. *)
Theorem joint_supernova_name_builds_kilonova_grb :
  forall st : list float,
    rmap composition_of
      (light_curve_model (with_joint (default_args "salt2" "out" "run")) st)
    = Ok kilonova_grb
    /\ rmap composition_of
         (light_curve_model
            (with_joint (default_args "nugent-hyper" "out" "run")) st)
       = Ok kilonova_grb.
Proof. intros st. split; reflexivity. Qed.

(** C2: in joint mode every model name other than "TrPi2018" gives the
    KilonovaGRBLightCurveModel composite, and no input at all gives the
    SupernovaGRBLightCurveModel. *)
Theorem joint_mode_always_kilonova_grb :
  forall (args : Args) (st : list float),
    (joint_light_curve args = true ->
     model args <> "TrPi2018" ->
     light_curve_model args st
     = Ok (KilonovaGRBLightCurveModel st
             {| kn_model := model args;
                kn_svd_path := svd_path args;
                kn_mag_ncoeff := svd_mag_ncoeff args;
                kn_lbol_ncoeff := svd_lbol_ncoeff args;
                kn_interpolation_type := interpolation_type args;
                kn_parameter_conversion := None |}
             (grb_resolution args) (jet_type args)))
    /\ (forall m, light_curve_model args st = Ok m ->
                  composition_of m <> supernova_grb).
Proof.
  intros args st. split.
  - intros Hjoint Hname. unfold light_curve_model.
    rewrite Hjoint, (str_ne_true _ _ Hname), supernova_guard_always_true.
    reflexivity.
  - intros m. unfold light_curve_model.
    rewrite supernova_guard_always_true.
    destruct (joint_light_curve args).
    + destruct (str_ne (model args) "TrPi2018"); [| discriminate].
      intros [= <-]. discriminate.
    + destruct (String.eqb (model args) "TrPi2018");
        [intros [= <-]; discriminate |].
      destruct (String.eqb (model args) "nugent-hyper"
                || String.eqb (model args) "salt2");
        intros [= <-]; discriminate.
Qed.

Lemma joint_mode_always_kilonova_grb_witness :
  light_curve_model (with_joint (default_args "Bu2019lm" "out" "run")) []
  = Ok (KilonovaGRBLightCurveModel []
          {| kn_model := "Bu2019lm"; kn_svd_path := None;
             kn_mag_ncoeff := 10; kn_lbol_ncoeff := 10;
             kn_interpolation_type := "sklearn_gp";
             kn_parameter_conversion := None |}
          5%float 0).
Proof.
  apply (proj1 (joint_mode_always_kilonova_grb
                  (with_joint (default_args "Bu2019lm" "out" "run")) [])).
  - reflexivity.
  - discriminate.
Defined.

(** C3: with the joint flag set and the model name "TrPi2018" the
    assertion fails, and no model is built. *)
Theorem joint_grb_only_is_rejected :
  forall (args : Args) (st : list float),
    joint_light_curve args = true ->
    model args = "TrPi2018" ->
    light_curve_model args st
    = Err (AssertionError "TrPi2018 is not a kilonova / supernova model").
Proof.
  intros args st Hjoint Hname. unfold light_curve_model.
  rewrite Hjoint, Hname. reflexivity.
Qed.

Lemma joint_grb_only_is_rejected_witness :
  light_curve_model (with_joint (default_args "TrPi2018" "out" "run")) []
  = Err (AssertionError "TrPi2018 is not a kilonova / supernova model").
Proof.
  apply (joint_grb_only_is_rejected
           (with_joint (default_args "TrPi2018" "out" "run")) []);
    reflexivity.
Defined.

(** ** The time grid *)

Example ceil_to_intp_examples :
  Numpy.ceil_to_intp 141%float = Ok 141
  /\ Numpy.ceil_to_intp 0x1.1555555555555p+2%float = Ok 5
  /\ Numpy.ceil_to_intp (-0x1p-1)%float = Ok 0
  /\ Numpy.ceil_to_intp (-0x1.8p+0)%float = Ok (-1)
  /\ Numpy.floor_float 0x1.aaaaaaaaaaaabp+1%float = 3.
Proof. repeat split; reflexivity. Qed.

Lemma arange_length (start stop step : float) (l : list float) :
  Numpy.arange start stop step = Ok l ->
  exists len,
    Numpy.ceil_to_intp (PrimFloat.div (PrimFloat.sub stop start) step) = Ok len
    /\ length l = Z.to_nat len.
Proof.
  unfold Numpy.arange.
  destruct (Numpy.ceil_to_intp _) as [len | e]; simpl; [| discriminate].
  intros [= <-]. exists len. split; [reflexivity |].
  rewrite length_map, length_seq. reflexivity.
Qed.

Lemma arange_nth (start stop step : float) (l : list float) (i : nat) :
  Numpy.arange start stop step = Ok l ->
  (i < length l)%nat ->
  nth i l PrimFloat.nan = Numpy.arange_item start step i.
Proof.
  unfold Numpy.arange.
  destruct (Numpy.ceil_to_intp _) as [len | e]; simpl; [| discriminate].
  intros [= <-]. rewrite length_map, length_seq. intros Hi.
  rewrite (nth_indep _ PrimFloat.nan (Numpy.arange_item start step 0%nat))
    by (rewrite length_map, length_seq; exact Hi).
  rewrite (map_nth (Numpy.arange_item start step)), seq_nth by exact Hi.
  reflexivity.
Qed.

(** C7 as stated fails: for tmin = 0, tmax = 1, dt = 0.3 the grid has 5
    points, not [floor((1 - 0) / 0.3) + 1 = 4], and its last point 1.2 is
    beyond tmax by more than 0.1. *)
Lemma grid_length_is_not_floor_plus_one :
  exists l : list float,
    sample_times
      (with_grid (default_args "Bu2019lm" "out" "run")
                 0%float 1%float 0x1.3333333333333p-2%float) = Ok l
    /\ length l = 5%nat
    /\ spec_grid_length 0%float 1%float 0x1.3333333333333p-2%float = 4
    /\ Z.of_nat (length l)
       <> spec_grid_length 0%float 1%float 0x1.3333333333333p-2%float
    /\ last l = Some 0x1.3333333333333p+0%float
    /\ PrimFloat.ltb (PrimFloat.add 1%float 0x1.999999999999ap-4%float)
                     0x1.3333333333333p+0%float = true.
Proof.
  eexists. split; [vm_compute; reflexivity |].
  repeat split; try (vm_compute; reflexivity).
  vm_compute. discriminate.
Qed.

Lemma arange_last (start stop step : float) (l : list float) :
  Numpy.arange start stop step = Ok l ->
  l <> [] ->
  last l = Some (Numpy.arange_item start step (length l - 1)).
Proof.
  unfold Numpy.arange.
  destruct (Numpy.ceil_to_intp _) as [len | e]; simpl; [| discriminate].
  intros [= <-]. rewrite length_map, length_seq.
  destruct (Z.to_nat len) as [| n]; [intros H; contradiction H; reflexivity |].
  intros _. rewrite seq_S, map_app. cbn [map]. rewrite last_snoc.
  replace (S n - 1)%nat with (0 + n)%nat by lia. reflexivity.
Qed.

(** C7, amended: with the defaults tmin = 0.0, tmax = 14.0, dt = 0.1 the
    grid has exactly 141 points, the first 0.0 and the last 14.0; in
    general the grid has [ceil((tmax + dt - tmin) / dt)] points (none when
    that is not positive), the first is tmin, the second tmin + dt and the
    point [i] after that is [tmin + i * ((tmin + dt) - tmin)], the last
    point being the one at [i = n - 1]; the last point can lie beyond
    tmax, and not by rounding only: tmin = 0, tmax = 1, dt = 0.3 give 5
    points that end at 1.2, where [floor((tmax - tmin) / dt) + 1] is 4. *)
Theorem time_grid_contract :
  (exists l : list float,
      sample_times (default_args "Bu2019lm" "out" "run") = Ok l
      /\ length l = 141%nat
      /\ nth 0 l PrimFloat.nan = 0%float
      /\ last l = Some 14%float)
  /\ (exists l : list float,
         sample_times
           (with_grid (default_args "Bu2019lm" "out" "run")
                      0%float 1%float 0x1.3333333333333p-2%float) = Ok l
         /\ length l = 5%nat
         /\ last l = Some 0x1.3333333333333p+0%float
         /\ PrimFloat.ltb 1%float 0x1.3333333333333p+0%float = true
         /\ spec_grid_length 0%float 1%float 0x1.3333333333333p-2%float = 4)
  /\ (forall (args : Args) (l : list float),
         sample_times args = Ok l ->
         (exists len,
             Numpy.ceil_to_intp
               (PrimFloat.div
                  (PrimFloat.sub (PrimFloat.add (tmax args) (dt args))
                                 (tmin args))
                  (dt args)) = Ok len
             /\ length l = Z.to_nat len)
         /\ (forall i, (i < length l)%nat ->
                       nth i l PrimFloat.nan
                       = Numpy.arange_item (tmin args) (dt args) i)
         /\ (l <> [] ->
             nth 0 l PrimFloat.nan = tmin args
             /\ last l
                = Some (Numpy.arange_item (tmin args) (dt args)
                          (length l - 1)))).
Proof.
  split; [| split].
  - eexists. split; [vm_compute; reflexivity |].
    repeat split; vm_compute; reflexivity.
  - eexists. split; [vm_compute; reflexivity |].
    repeat split; vm_compute; reflexivity.
  - intros args l Hl. unfold sample_times in Hl. split; [| split].
    + exact (arange_length _ _ _ _ Hl).
    + intros i Hi. exact (arange_nth _ _ _ _ _ Hl Hi).
    + intros Hne. split.
      * apply (arange_nth _ _ _ _ 0%nat Hl).
        destruct l; [contradiction | simpl; lia].
      * exact (arange_last _ _ _ _ Hl Hne).
Qed.

Lemma time_grid_contract_witness :
  exists len,
    Numpy.ceil_to_intp
      (PrimFloat.div
         (PrimFloat.sub (PrimFloat.add 1%float 0x1p-1%float) 0%float)
         0x1p-1%float) = Ok len
    /\ length [0%float; 0x1p-1%float; 1%float] = Z.to_nat len.
Proof.
  exact (proj1 (proj2 (proj2 time_grid_contract)
                  (with_grid (default_args "Bu2019lm" "out" "run")
                             0%float 1%float 0x1p-1%float)
                  [0%float; 0x1p-1%float; 1%float] eq_refl)).
Defined.

(** ** Resampling onto the grid *)









Lemma column_length (k : nat) (a : list (list float)) (l : list float) :
  Numpy.column k a = Ok l -> length l = length a.
Proof.
  revert l. induction a as [| row a IH]; simpl; intros l.
  - intros [= <-]. reflexivity.
  - destruct (Numpy.column k a) as [rest | e]; simpl; [| discriminate].
    destruct (nth_error row k); [| discriminate].
    intros [= <-]. simpl. f_equal. apply IH. reflexivity.
Qed.




(** ** Histogram and percentiles *)

Lemma nanpercentile_skips_nan (l1 l2 : list float) (q : float) :
  Numpy.nanpercentile_1d (l1 ++ PrimFloat.nan :: l2) q
  = Numpy.nanpercentile_1d (l1 ++ l2) q.
Proof.
  unfold Numpy.nanpercentile_1d.
  rewrite !List.filter_app. simpl. reflexivity.
Qed.

(** C9 as stated fails: in the scenario the bin that holds -16 has count 1
    in every time column, not 3. *)
Lemma bin_of_minus_16_counts_one :
  exists d : list (list float),
    Aggregation.data_out (default_args "Bu2019lm" "out" "run")
      [0%float; 1%float; 2%float]
      (three_injections [0%float; 1%float; 2%float]) "g" = Ok d
    /\ Aggregation.bins_containing (-16)%float = [9%nat]
    /\ map (count_in_bin 9) (Aggregation.hist d) = [1; 1; 1]
    /\ forallb (fun h => count_in_bin 9 h =? 3) (Aggregation.hist d) = false.
Proof.
  eexists. split; [vm_compute; reflexivity |].
  repeat split; vm_compute; reflexivity.
Qed.

(** C9, amended: for three injections whose series in filter "g" are
    constant at -15, -16 and -17 on a 3-point grid, the 50th percentile
    series is [-16, -16, -16]; every time column holds one value of each
    injection, so the bin that holds -16 has count 1 there, as have the
    bins of -15 and -17, and each column's counts add up to 3. The
    percentile of a column does not change when a missing value is put
    into it. *)
Theorem aggregation_scenario :
  forall t0 t1 t2 : float,
    (exists d : list (list float),
        Aggregation.data_out (default_args "Bu2019lm" "out" "run")
          [t0; t1; t2] (three_injections [t0; t1; t2]) "g" = Ok d
        /\ Aggregation.nanpercentile d 50%float
           = [(-16)%float; (-16)%float; (-16)%float]
        /\ Aggregation.bins_containing (-16)%float = [9%nat]
        /\ Aggregation.bins_containing (-15)%float = [11%nat]
        /\ Aggregation.bins_containing (-17)%float = [7%nat]
        /\ map (count_in_bin 9) (Aggregation.hist d) = [1; 1; 1]
        /\ map (count_in_bin 11) (Aggregation.hist d) = [1; 1; 1]
        /\ map (count_in_bin 7) (Aggregation.hist d) = [1; 1; 1]
        /\ map (fun h => fold_right Z.add 0 h) (Aggregation.hist d) = [3; 3; 3])
    /\ (forall l1 l2 q,
           Numpy.nanpercentile_1d (l1 ++ PrimFloat.nan :: l2) q
           = Numpy.nanpercentile_1d (l1 ++ l2) q).
Proof.
  intros t0 t1 t2. split.
  - exists [[(-15)%float; (-15)%float; (-15)%float];
            [(-16)%float; (-16)%float; (-16)%float];
            [(-17)%float; (-17)%float; (-17)%float]].
    split; [reflexivity |].
    repeat split; vm_compute; reflexivity.
  - apply nanpercentile_skips_nan.
Qed.

(** ** The artifact text: scanning what the encoder wrote *)

Module JsonFacts.

Import Json.
Local Open Scope list_scope.

Lemma lex_escape (c : ascii) (acc tail : list ascii) :
  lex (LString acc) (escape c ++ tail) = lex (LString (acc ++ [c])) tail.
Proof.
  destruct c as [[] [] [] [] [] [] [] []]; reflexivity.
Qed.

Lemma lex_string_body (cs acc tail : list ascii) :
  lex (LString acc) (flat_map escape cs ++ dquote :: tail)
  = option_map (cons (TString (string_of_list_ascii (acc ++ cs))))
               (lex LDefault tail).
Proof.
  revert acc. induction cs as [| c cs IH]; intros acc.
  - simpl. rewrite app_nil_r. reflexivity.
  - change (flat_map escape (c :: cs)) with (escape c ++ flat_map escape cs).
    rewrite <- app_assoc, lex_escape, IH, <- app_assoc. reflexivity.
Qed.

Lemma lex_default_number_char (c : ascii) :
  is_number_char c = true -> lex_default c = Some (LNumber [c], []).
Proof.
  destruct c as [[] [] [] [] [] [] [] []];
    first [discriminate | reflexivity].
Qed.

Lemma lex_number_chars (cs acc tail : list ascii) :
  forallb is_number_char cs = true ->
  lex (LNumber acc) (cs ++ tail) = lex (LNumber (acc ++ cs)) tail.
Proof.
  revert acc. induction cs as [| c cs IH]; intros acc Hcs.
  - rewrite app_nil_r. reflexivity.
  - simpl in Hcs. apply andb_prop in Hcs as [Hc Hcs].
    simpl. rewrite Hc. simpl. rewrite (IH _ Hcs), <- app_assoc. reflexivity.
Qed.

Lemma lex_number_closed (t : token) (acc tail : list ascii) :
  closes_number t = true ->
  lex (LNumber acc) (render_token t ++ tail)
  = option_map (cons (TNumber (string_of_list_ascii acc)))
               (lex LDefault (render_token t ++ tail)).
Proof.
  destruct t; try discriminate; intros _; simpl;
    destruct (lex LDefault tail); reflexivity.
Qed.

Lemma lex_number_text (s : string) (tail : list ascii) :
  number_text_ok s = true ->
  lex LDefault (list_ascii_of_string s ++ tail)
  = lex (LNumber (list_ascii_of_string s)) tail.
Proof.
  unfold number_text_ok. intros Hs. apply andb_prop in Hs as [Hne Hcs].
  destruct s as [| c s]; [discriminate |].
  simpl in Hcs. apply andb_prop in Hcs as [Hc Hcs]. simpl.
  rewrite (lex_default_number_char c Hc). simpl.
  apply (lex_number_chars _ [c] tail Hcs).
Qed.

Lemma render_cons (t : token) (toks : list token) :
  render (t :: toks) = render_token t ++ render toks.
Proof. reflexivity. Qed.

(** The scanner reads back what the encoder wrote. *)
Lemma lex_render (toks : list token) :
  lexable toks = true -> lex LDefault (render toks) = Some toks.
Proof.
  induction toks as [| t toks IH]; [reflexivity |].
  rewrite render_cons.
  destruct t; simpl lexable; intros Hlex;
    try (cbn; rewrite (IH Hlex); reflexivity).
  - (* a string *)
    cbn [render_token]. unfold encode_string.
    change (lex LDefault ((dquote :: flat_map escape (list_ascii_of_string s)
                             ++ [dquote]) ++ render toks))
      with (lex (LString [])
                ((flat_map escape (list_ascii_of_string s) ++ [dquote])
                   ++ render toks)).
    rewrite <- app_assoc. cbn [app].
    rewrite lex_string_body, (IH Hlex). cbn.
    rewrite string_of_list_ascii_of_string. reflexivity.
  - (* a number *)
    apply andb_prop in Hlex as [Hlex Hrest].
    apply andb_prop in Hlex as [Hs Hnext].
    cbn [render_token]. rewrite (lex_number_text s _ Hs).
    destruct toks as [| t' toks'].
    + cbn. rewrite string_of_list_ascii_of_string. reflexivity.
    + rewrite render_cons in *. rewrite (lex_number_closed t' _ _ Hnext).
      rewrite (IH Hrest). cbn.
      rewrite string_of_list_ascii_of_string. reflexivity.
Qed.

Section Codec.

Context {num : Type}.
Variable num_repr : num -> string.
Variable num_parse : string -> option num.

(** What is asked of the number type: its text is read back as the
    number, and is a number's text. *)
Hypothesis num_parse_repr : forall x, num_parse (num_repr x) = Some x.
Hypothesis num_repr_ok : forall x, number_text_ok (num_repr x) = true.

Abbreviation items := (list (string * list (list num))).

(** *** The decoder reads back the encoder's chunks *)

Lemma parse_numbers_tail (obj : items) (key : string)
    (rows : list (list num)) (row nums : list num) (k : list token) :
  parse num_parse (PAfterNumber obj key rows row)
        (tokens_numbers_tail num_repr nums k)
  = parse num_parse (PAfterRow obj key (rows ++ [row ++ nums])) k.
Proof.
  revert row. induction nums as [| x nums IH]; intros row.
  - rewrite app_nil_r. reflexivity.
  - cbn. unfold parse_number. rewrite num_parse_repr.
    rewrite IH, <- app_assoc. reflexivity.
Qed.

Lemma parse_row (st : parse_state) (obj : items) (key : string)
    (rows : list (list num)) (row : list num) (k : list token) :
  parse_step num_parse st TLBracket = Some (PRowOpen obj key rows) ->
  parse num_parse st (tokens_row num_repr row k)
  = parse num_parse (PAfterRow obj key (rows ++ [row])) k.
Proof.
  intros Hst. unfold tokens_row. cbn [parse]. rewrite Hst.
  destruct row as [| x row]; [reflexivity |].
  cbn. unfold parse_number. rewrite num_parse_repr.
  apply (parse_numbers_tail obj key rows [x]).
Qed.

Lemma parse_rows_tail (obj : items) (key : string)
    (rows rs : list (list num)) (k : list token) :
  parse num_parse (PAfterRow obj key rows)
        (tokens_rows_tail num_repr rs k)
  = parse num_parse (PAfterValue (obj ++ [(key, rows ++ rs)])) k.
Proof.
  revert rows. induction rs as [| r rs IH]; intros rows.
  - rewrite app_nil_r. reflexivity.
  - cbn [tokens_rows_tail parse parse_step].
    rewrite (parse_row _ obj key rows) by reflexivity.
    rewrite IH, <- app_assoc. reflexivity.
Qed.

Lemma parse_rows (obj : items) (key : string) (rows : list (list num))
    (k : list token) :
  parse num_parse (PValue obj key) (tokens_rows num_repr rows k)
  = parse num_parse (PAfterValue (obj ++ [(key, rows)])) k.
Proof.
  unfold tokens_rows. cbn [parse parse_step].
  destruct rows as [| r rows]; [reflexivity |].
  rewrite (parse_row _ obj key []) by reflexivity.
  apply (parse_rows_tail obj key [r]).
Qed.

Lemma parse_table (obj : items) (key : string) (t : table num)
    (k : list token) :
  parse num_parse (PValue obj key) (tokens_table num_repr t k)
  = parse num_parse (PAfterValue (obj ++ [(key, rows_of t)])) k.
Proof. destruct t; apply parse_rows. Qed.

Lemma parse_item (st : parse_state) (obj : items)
    (kv : string * table num) (k : list token) :
  parse_step num_parse st (TString (fst kv)) = Some (PColon obj (fst kv)) ->
  parse num_parse st (tokens_item num_repr kv k)
  = parse num_parse (PAfterValue (obj ++ [(fst kv, rows_of (snd kv))])) k.
Proof.
  intros Hst. unfold tokens_item. cbn [parse]. rewrite Hst.
  cbn [parse parse_step]. apply parse_table.
Qed.

Lemma parse_items_tail (obj : items) (l : list (string * table num)) :
  parse num_parse (PAfterValue obj) (tokens_items_tail num_repr l [])
  = Some (obj ++ map decoded l).
Proof.
  revert obj. induction l as [| kv l IH]; intros obj.
  - rewrite app_nil_r. reflexivity.
  - cbn [tokens_items_tail parse parse_step].
    rewrite (parse_item _ obj) by reflexivity.
    rewrite IH, <- app_assoc. reflexivity.
Qed.

Lemma parse_object (l : list (string * table num)) :
  parse num_parse PStart (tokens_object num_repr l) = Some (map decoded l).
Proof.
  unfold tokens_object. cbn [parse parse_step].
  destruct l as [| kv l]; [reflexivity |].
  rewrite (parse_item _ []) by reflexivity.
  apply (parse_items_tail [decoded kv]).
Qed.

(** *** The encoder's chunks can be scanned *)

Lemma lexable_numbers_tail (nums : list num) (k : list token) :
  lexable (tokens_numbers_tail num_repr nums k) = lexable k.
Proof.
  induction nums as [| x nums IH]; [reflexivity |].
  cbn [tokens_numbers_tail lexable]. rewrite num_repr_ok, IH.
  destruct nums; reflexivity.
Qed.

Lemma lexable_row (row : list num) (k : list token) :
  lexable (tokens_row num_repr row k) = lexable k.
Proof.
  destruct row as [| x row]; [reflexivity |].
  cbn [tokens_row lexable]. rewrite num_repr_ok, lexable_numbers_tail.
  destruct row; reflexivity.
Qed.

Lemma lexable_rows_tail (rows : list (list num)) (k : list token) :
  lexable (tokens_rows_tail num_repr rows k) = lexable k.
Proof.
  induction rows as [| r rows IH]; [reflexivity |].
  cbn [tokens_rows_tail lexable]. rewrite lexable_row. exact IH.
Qed.

Lemma lexable_table (t : table num) (k : list token) :
  lexable (tokens_table num_repr t k) = lexable k.
Proof.
  assert (Hrows : forall rows,
             lexable (tokens_rows num_repr rows k) = lexable k).
  { intros [| r rows]; [reflexivity |].
    cbn [tokens_rows lexable]. rewrite lexable_row.
    apply lexable_rows_tail. }
  destruct t; apply Hrows.
Qed.

Lemma lexable_items_tail (l : list (string * table num)) :
  lexable (tokens_items_tail num_repr l []) = true.
Proof.
  induction l as [| kv l IH]; [reflexivity |].
  cbn [tokens_items_tail tokens_item lexable].
  rewrite lexable_table. exact IH.
Qed.

Lemma lexable_object (l : list (string * table num)) :
  lexable (tokens_object num_repr l) = true.
Proof.
  destruct l as [| kv l]; [reflexivity |].
  cbn [tokens_object tokens_item lexable].
  rewrite lexable_table. apply lexable_items_tail.
Qed.

(** *** The dict of the decoded items *)

Lemma dict_of_items_from (obj : items) (d : gmap string (table num)) :
  NoDup obj.*1 ->
  fold_left (fun d kv => <[fst kv := NestedList (snd kv)]> d) obj d
  = list_to_map (prod_map id NestedList <$> obj) ∪ d.
Proof.
  revert d. induction obj as [| [key rows] obj IH]; intros d Hnd.
  - cbn. rewrite (left_id_L ∅ (∪)). reflexivity.
  - apply NoDup_cons in Hnd as [Hkey Hnd]. cbn [fold_left fst snd].
    rewrite (IH _ Hnd). cbn.
    rewrite <- insert_union_l. symmetry. apply insert_union_r.
    apply not_elem_of_list_to_map_1.
    rewrite <- list_fmap_compose.
    replace (fst ∘ prod_map id NestedList) with (@fst string (list (list num)))
      by reflexivity.
    exact Hkey.
Qed.

Lemma dict_of_decoded (data : gmap string (table num)) :
  dict_of_items (map decoded (map_to_list data)) = tolist <$> data.
Proof.
  unfold dict_of_items. rewrite dict_of_items_from.
  - rewrite (right_id_L ∅ (∪)).
    replace (prod_map id NestedList <$> map decoded (map_to_list data))
      with (prod_map id tolist <$> map_to_list data).
    + rewrite list_to_map_fmap, list_to_map_to_list. reflexivity.
    + change (map decoded (map_to_list data))
        with (decoded <$> map_to_list data).
      rewrite <- list_fmap_compose. reflexivity.
  - change (map decoded (map_to_list data))
      with (decoded <$> map_to_list data).
    rewrite <- list_fmap_compose.
    replace (fst ∘ decoded) with (@fst string (table num)) by reflexivity.
    apply NoDup_fst_map_to_list.
Qed.

(** Reading back what was written gives the data, arrays as lists. *)
Lemma loads_dumps (data : gmap string (table num)) :
  loads num_parse (dumps num_repr data) = Ok (tolist <$> data).
Proof.
  unfold loads, dumps.
  rewrite list_ascii_of_string_of_list_ascii.
  rewrite (lex_render _ (lexable_object _)), parse_object.
  rewrite dict_of_decoded. reflexivity.
Qed.

End Codec.

End JsonFacts.

(** *** Integers as numbers *)

Lemma uint_text_number_chars (d : Decimal.uint) :
  forallb Json.is_number_char
          (list_ascii_of_string (NilEmpty.string_of_uint d)) = true.
Proof. induction d; simpl; try rewrite IHd; reflexivity. Qed.

Lemma uint_text_ok (d : Decimal.uint) :
  Json.number_text_ok (NilZero.string_of_uint d) = true.
Proof.
  unfold Json.number_text_ok, NilZero.string_of_uint.
  destruct d; try reflexivity;
    (apply andb_true_intro; split;
     [reflexivity | apply (uint_text_number_chars (_ d))]).
Qed.

Lemma int_repr_ok (z : Z) : Json.number_text_ok (int_repr z) = true.
Proof.
  unfold int_repr. destruct (Z.to_int z) as [d | d]; simpl.
  - apply uint_text_ok.
  - pose proof (uint_text_ok d) as Hd. unfold Json.number_text_ok in *.
    apply andb_prop in Hd as [_ Hd]. simpl. exact Hd.
Qed.

Lemma int_parse_repr (z : Z) : int_parse (int_repr z) = Some z.
Proof.
  unfold int_parse, int_repr. rewrite NilZero.isi.
  - simpl. rewrite DecimalZ.of_to. reflexivity.
  - destruct z; simpl; try discriminate.
    intros [= H]. exact (DecimalPos.Unsigned.to_uint_nonnil _ H).
  - destruct z; simpl; try discriminate.
    intros [= H]. exact (DecimalPos.Unsigned.to_uint_nonnil _ H).
Qed.

(** ** The injection loop *)

Lemma dict_get_set {V} (d : list (Z * V)) (k : Z) (v : V) :
  dict_get (dict_set d k v) k = Some v.
Proof.
  induction d as [| [k' v'] d IH]; simpl.
  - rewrite Z.eqb_refl. reflexivity.
  - destruct (Z.eqb_spec k' k) as [-> | Hne]; simpl.
    + rewrite Z.eqb_refl. reflexivity.
    + destruct (Z.eqb_spec k' k); [contradiction | exact IH].
Qed.

Lemma rows_of_tolist {num} (data : gmap string (table num)) :
  rows_of <$> (tolist <$> data) = rows_of <$> data.
Proof. rewrite <- map_fmap_compose. reflexivity. Qed.

Section InjectionFacts.

Context {num scalar : Type}.
Variable gps_to_mjd : scalar -> scalar.
Variable create_light_curve_data :
  gmap string scalar -> InjectionArgs -> bool -> LightCurveModel ->
  result (gmap string (table num)) * gmap string scalar.
Variable num_repr : num -> string.
Variable num_parse : string -> option num.

Abbreviation iteration' :=
  (iteration gps_to_mjd create_light_curve_data num_repr num_parse).
Abbreviation injections' :=
  (injections gps_to_mjd create_light_curve_data num_repr num_parse).
Abbreviation main' :=
  (main gps_to_mjd create_light_curve_data num_repr num_parse).

(** An object that exists is not the one [to_dict] makes. *)
Lemma allocated_not_fresh (h : gmap loc (gmap string scalar)) (l : loc)
    (series : gmap string scalar) :
  h !! l = Some series -> fresh (dom h) <> l.
Proof.
  intros Hl Heq. apply (is_fresh (dom h)). rewrite Heq.
  apply (elem_of_dom_2 _ _ _ Hl).
Qed.

Lemma iteration_cached (args : InjectionArgs) (lcm : LightCurveModel)
    (w : world scalar) (mag_ds : ResultCollection num) (index : Z)
    (row : loc) (text : string) :
  files w !! injection_outfile args index = Some text ->
  iteration' args lcm w mag_ds index row
  = (w, rmap (dict_set mag_ds index) (loads num_parse text)).
Proof.
  intros Hfile. unfold iteration. rewrite Hfile.
  destruct (loads num_parse text); reflexivity.
Qed.

(** One pass of the loop body leaves every existing object as it was. *)
Lemma iteration_heap (args : InjectionArgs) (lcm : LightCurveModel)
    (w w' : world scalar) (mag_ds : ResultCollection num) (index : Z)
    (row : loc) (r : result (ResultCollection num)) :
  iteration' args lcm w mag_ds index row = (w', r) ->
  forall l series, heap w !! l = Some series -> heap w' !! l = Some series.
Proof.
  unfold iteration. intros Hit l series Hl.
  destruct (files w !! injection_outfile args index).
  { injection Hit as <- _. exact Hl. }
  destruct (heap w !! row) as [s |].
  2: { injection Hit as <- _. exact Hl. }
  pose proof (allocated_not_fresh _ _ _ Hl) as Hfresh.
  destruct (trigger_time gps_to_mjd s) as [t | e].
  2: { injection Hit as <- _. simpl. rewrite lookup_insert_ne; assumption. }
  destruct (create_light_curve_data _ _ _ _) as [[data | e] after];
    injection Hit as <- _; simpl; rewrite lookup_insert_ne; assumption.
Qed.

Lemma injections_heap (args : InjectionArgs) (lcm : LightCurveModel)
    (injection_df : list (Z * loc)) :
  forall (w w' : world scalar) (mag_ds : ResultCollection num)
         (r : result (ResultCollection num)),
    injections' args lcm w mag_ds injection_df = (w', r) ->
    forall l series, heap w !! l = Some series -> heap w' !! l = Some series.
Proof.
  induction injection_df as [| [index row] rest IH];
    intros w w' mag_ds r Hrun l series Hl.
  - injection Hrun as <- _. exact Hl.
  - cbn [injections] in Hrun.
    destruct (iteration' args lcm w mag_ds index row) as [w1 [m1 | e]] eqn:Hit.
    + apply (IH _ _ _ _ Hrun). apply (iteration_heap _ _ _ _ _ _ _ _ Hit _ _ Hl).
    + injection Hrun as <- _. apply (iteration_heap _ _ _ _ _ _ _ _ Hit _ _ Hl).
Qed.

(** What a pass that has to compute does, when the row has a trigger
    time. *)
Lemma iteration_computes (args : InjectionArgs) (lcm : LightCurveModel)
    (w : world scalar) (mag_ds : ResultCollection num) (index : Z)
    (row : loc) (series : gmap string scalar) (t : scalar) :
  files w !! injection_outfile args index = None ->
  heap w !! row = Some series ->
  trigger_time gps_to_mjd series = Ok t ->
  exists w' r,
    iteration' args lcm w mag_ds index row = (w', r)
    /\ synth_calls w'
       = (synth_calls w ++ [<["kilonova_trigger_time" := t]> series])%list
    /\ r = rmap (dict_set mag_ds index)
             (fst (create_light_curve_data
                     (<["kilonova_trigger_time" := t]> series) args
                     (absolute (base args)) lcm)).
Proof.
  intros Hfile Hrow Ht. unfold iteration. rewrite Hfile, Hrow, Ht.
  destruct (create_light_curve_data _ _ _ _) as [[data | e] after];
    eexists; eexists; (split; [reflexivity |]); split; reflexivity.
Qed.

Lemma trigger_time_primary (series : gmap string scalar) (v : scalar) :
  series !! "geocent_time_x" = Some v ->
  trigger_time gps_to_mjd series = Ok (gps_to_mjd v).
Proof.
  intros Hv. unfold trigger_time, getitem. rewrite Hv. reflexivity.
Qed.

Lemma trigger_time_fallback (series : gmap string scalar) (v : scalar) :
  series !! "geocent_time_x" = None ->
  series !! "geocent_time" = Some v ->
  trigger_time gps_to_mjd series = Ok (gps_to_mjd v).
Proof.
  intros Hx Hv. unfold trigger_time, getitem. rewrite Hx, Hv. reflexivity.
Qed.

Lemma trigger_time_missing (series : gmap string scalar) :
  series !! "geocent_time_x" = None ->
  series !! "geocent_time" = None ->
  trigger_time gps_to_mjd series = Err (KeyError "geocent_time").
Proof.
  intros Hx Hv. unfold trigger_time, getitem. rewrite Hx, Hv. reflexivity.
Qed.

(** C5: the trigger time is read under "geocent_time_x", and under
    "geocent_time" only when the first key is absent; a row with neither
    key raises KeyError (the spec's MissingFieldError) with
    create_light_curve_data not called and no file written. *)
Theorem trigger_time_lookup :
  forall (args : InjectionArgs) (lcm : LightCurveModel) (w : world scalar)
         (mag_ds : ResultCollection num) (index : Z) (row : loc)
         (series : gmap string scalar),
    files w !! injection_outfile args index = None ->
    heap w !! row = Some series ->
    (forall v, series !! "geocent_time_x" = Some v ->
               trigger_time gps_to_mjd series = Ok (gps_to_mjd v))
    /\ (forall v, series !! "geocent_time_x" = None ->
                  series !! "geocent_time" = Some v ->
                  trigger_time gps_to_mjd series = Ok (gps_to_mjd v))
    /\ (forall t, trigger_time gps_to_mjd series = Ok t ->
                  synth_calls (fst (iteration' args lcm w mag_ds index row))
                  = (synth_calls w
                     ++ [<["kilonova_trigger_time" := t]> series])%list)
    /\ (series !! "geocent_time_x" = None ->
        series !! "geocent_time" = None ->
        exists w',
          iteration' args lcm w mag_ds index row
          = (w', Err (KeyError "geocent_time"))
          /\ synth_calls w' = synth_calls w
          /\ files w' = files w).
Proof.
  intros args lcm w mag_ds index row series Hfile Hrow.
  split; [| split; [| split]].
  - apply trigger_time_primary.
  - apply trigger_time_fallback.
  - intros t Ht.
    destruct (iteration_computes args lcm w mag_ds index row series t
                Hfile Hrow Ht) as (w' & r & -> & Hcalls & _).
    exact Hcalls.
  - intros Hx Hv. unfold iteration.
    rewrite Hfile, Hrow, (trigger_time_missing _ Hx Hv).
    eexists. split; [reflexivity |]. split; reflexivity.
Qed.

(** C10: the loop works on a dict made of the row; whatever it and
    create_light_curve_data do to that dict, every object that existed
    before [main] ran, the rows of the injection table among them, is
    afterwards as it was; the dict passed on is the row's with
    "kilonova_trigger_time" added. *)
Theorem table_rows_unchanged :
  forall (args : Args) (w w' : world scalar) (injection_df : list (Z * loc))
         (r : result (ResultCollection num)),
    main' args w injection_df = (w', r) ->
    (forall l series,
        heap w !! l = Some series -> heap w' !! l = Some series)
    /\ (forall lcm mag_ds index row series t,
           files w !! injection_outfile (injection_args args) index = None ->
           heap w !! row = Some series ->
           trigger_time gps_to_mjd series = Ok t ->
           let w1 := fst (iteration' (injection_args args) lcm w mag_ds
                            index row) in
           heap w1 !! row = Some series
           /\ synth_calls w1
              = (synth_calls w
                 ++ [<["kilonova_trigger_time" := t]> series])%list).
Proof.
  intros args w w' injection_df r Hmain. split.
  - unfold main in Hmain.
    destruct (sample_times args) as [st | e].
    2: { injection Hmain as <- _. auto. }
    destruct (light_curve_model args st) as [m | e].
    2: { injection Hmain as <- _. auto. }
    apply (injections_heap _ _ _ _ _ _ _ Hmain).
  - intros lcm mag_ds index row series t Hfile Hrow Ht w1. split.
    + apply (iteration_heap (injection_args args) lcm w w1 mag_ds index row
               (snd (iteration' (injection_args args) lcm w mag_ds index row))).
      * subst w1. apply surjective_pairing.
      * exact Hrow.
    + destruct (iteration_computes (injection_args args) lcm w mag_ds index
                  row series t Hfile Hrow Ht) as (w2 & r2 & Hit & Hcalls & _).
      subst w1. rewrite Hit. exact Hcalls.
Qed.

(** *** The cache *)

Hypothesis num_parse_repr : forall x, num_parse (num_repr x) = Some x.
Hypothesis num_repr_ok :
  forall x, Json.number_text_ok (num_repr x) = true.

(** C6: a result written to its artifact by [json.dump] with the
    NumpyEncoder and read back by [json.loads] has the filters of the
    original and, for each, the same rows of numbers. *)
Theorem artifact_round_trip :
  forall data : gmap string (table num),
  exists reloaded : gmap string (table num),
    loads num_parse (dumps num_repr data) = Ok reloaded
    /\ values reloaded = values data
    /\ (forall filt, rows_of <$> reloaded !! filt = rows_of <$> data !! filt).
Proof.
  intros data. exists (tolist <$> data).
  split; [apply JsonFacts.loads_dumps; assumption |].
  split; [apply rows_of_tolist |].
  intros filt. rewrite lookup_fmap. destruct (data !! filt); reflexivity.
Qed.

(** C4: when a pass of the loop body for an index has returned, a second
    pass for that index (same row, nothing deleted) returns the same
    values and leaves everything as it is, so create_light_curve_data is
    called at most once over the two; when the artifact is there at the
    start it is read and create_light_curve_data is not called. *)
Theorem get_or_compute_idempotent :
  forall (args : InjectionArgs) (lcm : LightCurveModel)
         (w w1 : world scalar) (mag_ds mag_ds' m1 : ResultCollection num)
         (index : Z) (row : loc),
    iteration' args lcm w mag_ds index row = (w1, Ok m1) ->
    (exists m2 r1 r2,
        iteration' args lcm w1 mag_ds' index row = (w1, Ok m2)
        /\ dict_get m1 index = Some r1
        /\ dict_get m2 index = Some r2
        /\ values r1 = values r2
        /\ (length (synth_calls w1) <= length (synth_calls w) + 1)%nat)
    /\ (forall text,
           files w !! injection_outfile args index = Some text ->
           w1 = w
           /\ exists data,
               loads num_parse text = Ok data
               /\ dict_get m1 index = Some data).
Proof.
  intros args lcm w w1 mag_ds mag_ds' m1 index row Hit. split.
  - destruct (files w !! injection_outfile args index) as [text |] eqn:Hfile.
    + rewrite (iteration_cached _ _ _ _ _ _ _ Hfile) in Hit.
      destruct (loads num_parse text) as [data | e] eqn:Hload;
        [| discriminate].
      injection Hit as <- <-.
      exists (dict_set mag_ds' index data), data, data.
      rewrite (iteration_cached _ _ _ mag_ds' _ _ _ Hfile), Hload.
      rewrite !dict_get_set. repeat split; try reflexivity. lia.
    + unfold iteration in Hit. rewrite Hfile in Hit.
      destruct (heap w !! row) as [series |]; [| discriminate].
      destruct (trigger_time gps_to_mjd series) as [t | e]; [| discriminate].
      destruct (create_light_curve_data _ _ _ _) as [[data | e] after];
        [| discriminate].
      injection Hit as <- <-.
      exists (dict_set mag_ds' index (tolist <$> data)), data, (tolist <$> data).
      rewrite (iteration_cached _ _ _ mag_ds' _ _ (dumps num_repr data))
        by (simpl; apply lookup_insert_eq).
      rewrite (JsonFacts.loads_dumps _ _ num_parse_repr num_repr_ok).
      rewrite !dict_get_set. simpl.
      repeat split; try reflexivity.
      * unfold values. symmetry. apply rows_of_tolist.
      * rewrite length_app. simpl. lia.
  - intros text Hfile.
    rewrite (iteration_cached _ _ _ _ _ _ _ Hfile) in Hit.
    destruct (loads num_parse text) as [data | e]; [| discriminate].
    injection Hit as <- <-. split; [reflexivity |].
    exists data. split; [reflexivity | apply dict_get_set].
Qed.

End InjectionFacts.

Lemma artifact_round_trip_witness :
  exists reloaded : gmap string (table Z),
    loads int_parse (dumps int_repr Example.data) = Ok reloaded
    /\ values reloaded = values Example.data
    /\ (forall filt,
           rows_of <$> reloaded !! filt = rows_of <$> Example.data !! filt).
Proof.
  exact (artifact_round_trip int_repr int_parse int_parse_repr int_repr_ok
           Example.data).
Defined.

Lemma get_or_compute_idempotent_witness :
  exists m2 r1 r2,
    Example.run1 (fst (Example.run1 (Example.start Example.row_with_time)))
    = (fst (Example.run1 (Example.start Example.row_with_time)), Ok m2)
    /\ dict_get (dict_set [] 7 Example.data) 7 = Some r1
    /\ dict_get m2 7 = Some r2
    /\ values r1 = values r2
    /\ (length (synth_calls
                  (fst (Example.run1 (Example.start Example.row_with_time))))
        <= length (synth_calls (Example.start Example.row_with_time)) + 1)%nat.
Proof.
  refine (proj1 (get_or_compute_idempotent
                   Example.to_mjd Example.synthesis int_repr int_parse
                   int_parse_repr int_repr_ok
                   (injection_args Example.args) Example.model
                   (Example.start Example.row_with_time)
                   (fst (Example.run1 (Example.start Example.row_with_time)))
                   [] [] (dict_set [] 7 Example.data) 7 1%positive _)).
  vm_compute. reflexivity.
Defined.

Lemma trigger_time_lookup_witness :
  exists w',
    Example.run1 (Example.start Example.row_without_time)
    = (w', Err (KeyError "geocent_time"))
    /\ synth_calls w' = synth_calls (Example.start Example.row_without_time)
    /\ files w' = files (Example.start Example.row_without_time).
Proof.
  refine (proj2 (proj2 (proj2
            (trigger_time_lookup
               Example.to_mjd Example.synthesis int_repr int_parse
               (injection_args Example.args) Example.model
               (Example.start Example.row_without_time) [] 7 1%positive
               Example.row_without_time _ _))) _ _);
    vm_compute; reflexivity.
Defined.

Lemma table_rows_unchanged_witness :
  heap (fst (main Example.to_mjd Example.synthesis int_repr int_parse
               Example.args (Example.start Example.row_with_time)
               [(7, 1%positive)]))
  !! 1%positive = Some Example.row_with_time.
Proof.
  refine (proj1 (table_rows_unchanged
                   Example.to_mjd Example.synthesis int_repr int_parse
                   Example.args (Example.start Example.row_with_time)
                   _ [(7, 1%positive)] _ _) 1%positive Example.row_with_time _).
  - apply surjective_pairing.
  - vm_compute. reflexivity.
Defined.

(** * Further properties of the code *)

(** ** Model selection and the start of [main] *)

(** X1: building the model fails in exactly one case, the joint flag with
    the model name "TrPi2018". *)
Theorem light_curve_model_fails_iff :
  forall (args : Args) (st : list float),
    is_ok (light_curve_model args st) = false
    <-> joint_light_curve args = true /\ model args = "TrPi2018".
Proof.
  intros args st. unfold light_curve_model.
  rewrite supernova_guard_always_true. unfold str_ne.
  destruct (joint_light_curve args);
    destruct (String.eqb_spec (model args) "TrPi2018") as [Heq | Hne];
    simpl; try (destruct (_ || _)); simpl;
    split; try discriminate; try tauto;
    intros [Hj Hm]; try discriminate; contradiction.
Qed.

(** X2: without the joint flag, "TrPi2018" gives the GRB model, the names
    "nugent-hyper" and "salt2" give the supernova model of that name, and
    every other name gives the SVD model with the name, the grid, the SVD
    path, the two coefficient counts and the interpolation type. *)
Theorem single_mode_dispatch :
  forall (args : Args) (st : list float),
    joint_light_curve args = false ->
    (model args = "TrPi2018" ->
     light_curve_model args st
     = Ok (GRBLightCurveModel st (grb_resolution args) (jet_type args)))
    /\ (model args = "nugent-hyper" \/ model args = "salt2" ->
        light_curve_model args st
        = Ok (SupernovaLightCurveModel st (model args)))
    /\ (model args <> "TrPi2018" ->
        model args <> "nugent-hyper" ->
        model args <> "salt2" ->
        light_curve_model args st
        = Ok (SVDLightCurveModel
                {| lc_model := model args;
                   lc_sample_times := st;
                   lc_svd_path := svd_path args;
                   lc_mag_ncoeff := svd_mag_ncoeff args;
                   lc_lbol_ncoeff := svd_lbol_ncoeff args;
                   lc_interpolation_type := interpolation_type args |})).
Proof.
  intros args st Hjoint. unfold light_curve_model. rewrite Hjoint.
  split; [| split].
  - intros ->. reflexivity.
  - intros [-> | ->]; reflexivity.
  - intros H1 H2 H3.
    destruct (String.eqb_spec (model args) "TrPi2018"); [contradiction |].
    destruct (String.eqb_spec (model args) "nugent-hyper"); [contradiction |].
    destruct (String.eqb_spec (model args) "salt2"); [contradiction |].
    reflexivity.
Qed.

Lemma single_mode_dispatch_witness :
  light_curve_model (default_args "salt2" "out" "run") []
  = Ok (SupernovaLightCurveModel [] "salt2").
Proof.
  refine (proj1 (proj2 (single_mode_dispatch
                          (default_args "salt2" "out" "run") [] _)) _).
  - reflexivity.
  - right. reflexivity.
Defined.

(** X3: whichever model is built, it is built on the grid handed in. *)
Theorem built_model_keeps_grid :
  forall (args : Args) (st : list float) (m : LightCurveModel),
    light_curve_model args st = Ok m -> grid_of m = st.
Proof.
  intros args st m. unfold light_curve_model.
  destruct (joint_light_curve args).
  - destruct (str_ne (model args) "TrPi2018"); [| discriminate].
    destruct (_ || _); intros [= <-]; reflexivity.
  - destruct (String.eqb (model args) "TrPi2018");
      [intros [= <-]; reflexivity |].
    destruct (_ || _); intros [= <-]; reflexivity.
Qed.

Lemma built_model_keeps_grid_witness :
  grid_of (GRBLightCurveModel [0%float; 1%float] 5%float 0)
  = [0%float; 1%float].
Proof.
  apply (built_model_keeps_grid (default_args "TrPi2018" "out" "run")).
  reflexivity.
Defined.

(** ** The artifact's name *)

Lemma append_inj_l (a b1 b2 : string) :
  (a ++ b1 = a ++ b2)%string -> b1 = b2.
Proof.
  induction a as [| c a IH]; simpl; [tauto |].
  intros [= H]. exact (IH H).
Qed.

Lemma list_ascii_of_string_app (a b : string) :
  list_ascii_of_string (a ++ b)
  = (list_ascii_of_string a ++ list_ascii_of_string b)%list.
Proof. induction a as [| c a IH]; simpl; [| rewrite IH]; reflexivity. Qed.

Lemma append_inj_r (a1 a2 b : string) :
  (a1 ++ b = a2 ++ b)%string -> a1 = a2.
Proof.
  intros H. apply (f_equal list_ascii_of_string) in H.
  rewrite !list_ascii_of_string_app in H. apply app_inv_tail in H.
  apply (f_equal string_of_list_ascii) in H.
  rewrite !string_of_list_ascii_of_string in H. exact H.
Qed.

Lemma path_join_inj (a b1 b2 : string) :
  path_join a b1 = path_join a b2 -> b1 = b2.
Proof.
  unfold path_join. destruct (String.eqb a ""); [tauto |].
  destruct (String.get _ a) as [c |].
  - destruct (Ascii.eqb_spec c "/"%char) as [-> | Hne].
    + apply append_inj_l.
    + assert (H : forall b, match c with
                            | "/"%char => (a ++ b)%string
                            | _ => (a ++ "/" ++ b)%string
                            end = (a ++ "/" ++ b)%string).
      { intros b. destruct c as [[] [] [] [] [] [] [] []];
          first [reflexivity | contradiction Hne; reflexivity]. }
      rewrite !H. intros Heq. apply append_inj_l in Heq.
      exact (append_inj_l _ _ _ Heq).
  - intros Heq. apply append_inj_l in Heq. exact (append_inj_l _ _ _ Heq).
Qed.

Lemma int_repr_inj (i j : Z) : int_repr i = int_repr j -> i = j.
Proof.
  intros H. apply (f_equal int_parse) in H.
  rewrite !int_parse_repr in H. congruence.
Qed.

(** X4: in one output directory two injections have the same artifact
    file exactly when they have the same index. *)
Theorem injection_outfile_injective :
  forall (args : InjectionArgs) (i j : Z),
    injection_outfile args i = injection_outfile args j <-> i = j.
Proof.
  intros args i j. split; [| intros ->; reflexivity].
  unfold injection_outfile. intros H.
  apply path_join_inj, append_inj_r in H. exact (int_repr_inj _ _ H).
Qed.

(** ** The injection loop as a cache *)

Lemma dict_get_set_ne {V} (d : list (Z * V)) (k k' : Z) (v : V) :
  k <> k' -> dict_get (dict_set d k v) k' = dict_get d k'.
Proof.
  intros Hne. induction d as [| [k0 v0] d IH]; simpl.
  - destruct (Z.eqb_spec k k'); [contradiction | reflexivity].
  - destruct (Z.eqb_spec k0 k) as [-> | Hk0]; simpl.
    + destruct (Z.eqb_spec k k'); [contradiction | reflexivity].
    + destruct (Z.eqb_spec k0 k'); [reflexivity | exact IH].
Qed.

Section CacheFacts.

Context {num scalar : Type}.
Variable gps_to_mjd : scalar -> scalar.
Variable create_light_curve_data :
  gmap string scalar -> InjectionArgs -> bool -> LightCurveModel ->
  result (gmap string (table num)) * gmap string scalar.
Variable num_repr : num -> string.
Variable num_parse : string -> option num.

Abbreviation pass :=
  (iteration gps_to_mjd create_light_curve_data num_repr num_parse).
Abbreviation loop :=
  (injections gps_to_mjd create_light_curve_data num_repr num_parse).

(** A pass keeps the files there are, with their contents. *)
Lemma iteration_files (args : InjectionArgs) (lcm : LightCurveModel)
    (w w' : world scalar) (mag_ds : ResultCollection num) (index : Z)
    (row : loc) (r : result (ResultCollection num)) :
  pass args lcm w mag_ds index row = (w', r) ->
  forall p text, files w !! p = Some text -> files w' !! p = Some text.
Proof.
  unfold iteration. intros Hit p text Hp.
  destruct (files w !! injection_outfile args index) eqn:Hfile.
  { injection Hit as <- _. exact Hp. }
  destruct (heap w !! row) as [s |].
  2: { injection Hit as <- _. exact Hp. }
  destruct (trigger_time gps_to_mjd s) as [t | e].
  2: { injection Hit as <- _. exact Hp. }
  destruct (create_light_curve_data _ _ _ _) as [[data | e] after];
    injection Hit as <- _; simpl; [| exact Hp].
  rewrite lookup_insert_ne; [exact Hp |].
  intros Heq. rewrite Heq in Hfile. congruence.
Qed.

(** X5: the loop never deletes or rewrites a file that is there: every
    file of the output directory has the same contents after the loop,
    however the loop ends. *)
Theorem artifacts_never_overwritten :
  forall (args : InjectionArgs) (lcm : LightCurveModel)
         (injection_df : list (Z * loc)) (w w' : world scalar)
         (mag_ds : ResultCollection num) (r : result (ResultCollection num)),
    loop args lcm w mag_ds injection_df = (w', r) ->
    forall p text, files w !! p = Some text -> files w' !! p = Some text.
Proof.
  intros args lcm injection_df.
  induction injection_df as [| [index row] rest IH];
    intros w w' mag_ds r Hrun p text Hp.
  - injection Hrun as <- _. exact Hp.
  - cbn [injections] in Hrun.
    destruct (pass args lcm w mag_ds index row) as [w1 [m1 | e]] eqn:Hit.
    + apply (IH _ _ _ _ Hrun). apply (iteration_files _ _ _ _ _ _ _ _ Hit _ _ Hp).
    + injection Hrun as <- _. apply (iteration_files _ _ _ _ _ _ _ _ Hit _ _ Hp).
Qed.

Lemma loads_empty : loads num_parse "" = Err (JSONDecodeError "Expecting value").
Proof. reflexivity. Qed.

(** X6: an artifact that cannot be decoded, an empty file for one, is not
    computed again: the loop ends at its row with the decoder's error,
    with nothing changed and the rows after it not looked at. *)
Theorem unreadable_artifact_ends_the_loop :
  forall (args : InjectionArgs) (lcm : LightCurveModel) (w : world scalar)
         (mag_ds : ResultCollection num) (index : Z) (row : loc)
         (rest : list (Z * loc)) (text : string) (e : exn),
    files w !! injection_outfile args index = Some text ->
    (loads num_parse text = Err e ->
     loop args lcm w mag_ds ((index, row) :: rest) = (w, Err e))
    /\ (text = "" ->
        loop args lcm w mag_ds ((index, row) :: rest)
        = (w, Err (JSONDecodeError "Expecting value"))).
Proof.
  intros args lcm w mag_ds index row rest text e Hfile.
  assert (Hgen : forall e', loads num_parse text = Err e' ->
                            loop args lcm w mag_ds ((index, row) :: rest)
                            = (w, Err e')).
  { intros e' Hload. cbn [injections].
    rewrite (iteration_cached _ _ _ _ _ _ _ _ _ _ _ Hfile), Hload.
    reflexivity. }
  split; [apply Hgen |].
  intros ->. apply Hgen, loads_empty.
Qed.

(** X10: when the artifact of an index is there, the pass gives what it
    holds (mag_ds with the decoded file at the index, or the decoder's
    exception) whatever the row, the model and the other arguments are,
    and changes nothing: an artifact of an earlier run with other
    parameters is taken as it is. *)
Theorem cached_result_ignores_parameters :
  forall (args1 args2 : InjectionArgs) (lcm1 lcm2 : LightCurveModel)
         (w : world scalar) (mag_ds : ResultCollection num) (index : Z)
         (row1 row2 : loc) (text : string),
    outdir (base args1) = outdir (base args2) ->
    files w !! injection_outfile args1 index = Some text ->
    pass args1 lcm1 w mag_ds index row1
    = (w, rmap (dict_set mag_ds index) (loads num_parse text))
    /\ pass args2 lcm2 w mag_ds index row2
       = (w, rmap (dict_set mag_ds index) (loads num_parse text))
    /\ (forall data,
           loads num_parse text = Ok data ->
           exists m,
             snd (pass args2 lcm2 w mag_ds index row2) = Ok m
             /\ dict_get m index = Some data).
Proof.
  intros args1 args2 lcm1 lcm2 w mag_ds index row1 row2 text Hout Hfile.
  assert (Hfile2 : files w !! injection_outfile args2 index = Some text).
  { unfold injection_outfile in *. rewrite <- Hout. exact Hfile. }
  rewrite (iteration_cached _ _ _ _ _ _ _ _ _ _ _ Hfile).
  rewrite (iteration_cached _ _ _ _ _ _ _ _ _ _ _ Hfile2).
  split; [reflexivity |]. split; [reflexivity |].
  intros data ->. simpl. eexists. split; [reflexivity | apply dict_get_set].
Qed.

(** What a pass changes in the counts of files, lines and calls. *)
Lemma iteration_counts (args : InjectionArgs) (lcm : LightCurveModel)
    (w w' : world scalar) (mag_ds : ResultCollection num) (index : Z)
    (row : loc) (r : result (ResultCollection num)) :
  pass args lcm w mag_ds index row = (w', r) ->
  (size (files w') + length (stdout w) = size (files w) + length (stdout w')
   /\ length (synth_calls w') <= length (synth_calls w) + 1
   /\ length (synth_calls w) <= length (synth_calls w')
   /\ (is_ok r = true ->
       length (synth_calls w') + size (files w)
       = length (synth_calls w) + size (files w')))%nat.
Proof.
  unfold iteration. intros Hit.
  destruct (files w !! injection_outfile args index) eqn:Hfile.
  { injection Hit as <- _. lia. }
  destruct (heap w !! row) as [s |].
  2: { injection Hit as <- _. lia. }
  destruct (trigger_time gps_to_mjd s) as [t | e].
  2: { injection Hit as <- _. simpl. lia. }
  destruct (create_light_curve_data _ _ _ _) as [[data | e] after];
    injection Hit as <- <-; simpl.
  - rewrite (map_size_insert_None _ _ _ Hfile), !length_app. simpl. lia.
  - rewrite length_app. simpl. repeat split; try lia; discriminate.
Qed.

(** X9: every file the loop creates comes with one line "Injection
    generated"; create_light_curve_data is called at most once per row of
    the table; and when the loop ends without an exception it has been
    called exactly once per file created. *)
Theorem one_file_per_computation :
  forall (args : InjectionArgs) (lcm : LightCurveModel)
         (injection_df : list (Z * loc)) (w w' : world scalar)
         (mag_ds : ResultCollection num) (r : result (ResultCollection num)),
    loop args lcm w mag_ds injection_df = (w', r) ->
    (size (files w') + length (stdout w) = size (files w) + length (stdout w')
     /\ length (synth_calls w')
        <= length (synth_calls w) + length injection_df
     /\ length (synth_calls w) <= length (synth_calls w')
     /\ (is_ok r = true ->
         length (synth_calls w') + size (files w)
         = length (synth_calls w) + size (files w')))%nat.
Proof.
  intros args lcm injection_df.
  induction injection_df as [| [index row] rest IH];
    intros w w' mag_ds r Hrun.
  - injection Hrun as <- _. simpl. lia.
  - cbn [injections] in Hrun.
    destruct (pass args lcm w mag_ds index row) as [w1 [m1 | e]] eqn:Hit;
      apply iteration_counts in Hit as (Hf & Hc & Hc' & Hok).
    + specialize (Hok eq_refl).
      destruct (IH _ _ _ _ Hrun) as (Hf2 & Hc2 & Hc2' & Hok2).
      simpl length. repeat split; try lia.
      intros Hr. specialize (Hok2 Hr). lia.
    + injection Hrun as <- <-. simpl length.
      repeat split; try lia; discriminate.
Qed.

(** X17: with the joint flag and the model name "TrPi2018", [main] ends
    with an exception before the injection table is looked at: nothing
    is read, computed or written; the exception is the failed assertion
    whenever the time grid could be made. *)
Theorem main_rejects_before_injections :
  forall (args : Args) (w : world scalar) (injection_df : list (Z * loc)),
    joint_light_curve args = true ->
    model args = "TrPi2018" ->
    exists e,
      main gps_to_mjd create_light_curve_data num_repr num_parse
           args w injection_df = (w, Err e)
      /\ (is_ok (sample_times args) = true ->
          e = AssertionError "TrPi2018 is not a kilonova / supernova model").
Proof.
  intros args w injection_df Hjoint Hname. unfold main.
  destruct (sample_times args) as [st | e].
  - unfold light_curve_model. rewrite Hjoint, Hname. simpl.
    eexists. split; reflexivity.
  - exists e. split; [reflexivity | discriminate].
Qed.

End CacheFacts.

(** ** Resuming a run *)

Section ResumeFacts.

Context {num scalar : Type}.
Variable gps_to_mjd : scalar -> scalar.
Variable create_light_curve_data :
  gmap string scalar -> InjectionArgs -> bool -> LightCurveModel ->
  result (gmap string (table num)) * gmap string scalar.
Variable num_repr : num -> string.
Variable num_parse : string -> option num.

Hypothesis num_parse_repr : forall x, num_parse (num_repr x) = Some x.
Hypothesis num_repr_ok : forall x, Json.number_text_ok (num_repr x) = true.

Abbreviation pass' :=
  (iteration gps_to_mjd create_light_curve_data num_repr num_parse).
Abbreviation loop' :=
  (injections gps_to_mjd create_light_curve_data num_repr num_parse).

Lemma cached_file (args : InjectionArgs) (w : world scalar) (index : Z)
    (data : gmap string (table num)) :
  cached num_parse args w index = Some data ->
  exists text,
    files w !! injection_outfile args index = Some text
    /\ loads num_parse text = Ok data.
Proof.
  unfold cached.
  destruct (files w !! injection_outfile args index) as [text |];
    [| discriminate].
  destruct (loads num_parse text) as [d | e] eqn:Hload; [| discriminate].
  intros [= <-]. exists text. split; [reflexivity | exact Hload].
Qed.

Lemma cached_of_file (args : InjectionArgs) (w : world scalar) (index : Z)
    (text : string) (data : gmap string (table num)) :
  files w !! injection_outfile args index = Some text ->
  loads num_parse text = Ok data ->
  cached num_parse args w index = Some data.
Proof. intros Hf Hl. unfold cached. rewrite Hf, Hl. reflexivity. Qed.

(** The index of a pass that returns has a readable artifact, holding the
    values the pass gave. *)
Lemma pass_leaves_artifact (args : InjectionArgs) (lcm : LightCurveModel)
    (w w1 : world scalar) (mag_ds m1 : ResultCollection num) (index : Z)
    (row : loc) :
  pass' args lcm w mag_ds index row = (w1, Ok m1) ->
  exists data r,
    cached num_parse args w1 index = Some data
    /\ dict_get m1 index = Some r
    /\ values r = values data.
Proof.
  intros Hit.
  destruct (files w !! injection_outfile args index) as [text |] eqn:Hfile.
  - rewrite (iteration_cached _ _ _ _ _ _ _ _ _ _ _ Hfile) in Hit.
    destruct (loads num_parse text) as [data | e] eqn:Hload; [| discriminate].
    injection Hit as <- <-. exists data, data.
    split; [exact (cached_of_file _ _ _ _ _ Hfile Hload) |].
    split; [apply dict_get_set | reflexivity].
  - unfold iteration in Hit. rewrite Hfile in Hit.
    destruct (heap w !! row) as [series |]; [| discriminate].
    destruct (trigger_time gps_to_mjd series) as [t | e]; [| discriminate].
    destruct (create_light_curve_data _ _ _ _) as [[data | e] after];
      [| discriminate].
    injection Hit as <- <-. exists (tolist <$> data), data.
    split.
    + apply (cached_of_file _ _ _ (dumps num_repr data)).
      * simpl. apply lookup_insert_eq.
      * apply JsonFacts.loads_dumps; assumption.
    + split; [apply dict_get_set |].
      unfold values. symmetry. apply rows_of_tolist.
Qed.

Lemma pass_sets_its_index (args : InjectionArgs) (lcm : LightCurveModel)
    (w w1 : world scalar) (mag_ds m1 : ResultCollection num) (index : Z)
    (row : loc) :
  pass' args lcm w mag_ds index row = (w1, Ok m1) ->
  exists x, m1 = dict_set mag_ds index x.
Proof.
  unfold iteration.
  destruct (files w !! injection_outfile args index) as [text |].
  { destruct (loads num_parse text) as [data | e]; simpl; [| discriminate].
    intros [= _ <-]. eexists. reflexivity. }
  destruct (heap w !! row) as [series |]; [| discriminate].
  destruct (trigger_time gps_to_mjd series) as [t | e]; [| discriminate].
  destruct (create_light_curve_data _ _ _ _) as [[data | e] after];
    [| discriminate].
  intros [= _ <-]. eexists. reflexivity.
Qed.

(** An index whose entry agrees with its artifact keeps that through a
    pass for any index. *)
Lemma pass_keeps_agreement (args : InjectionArgs) (lcm : LightCurveModel)
    (w w1 : world scalar) (mag_ds m1 : ResultCollection num) (j : Z)
    (row : loc) (i : Z) (data r : gmap string (table num)) :
  pass' args lcm w mag_ds j row = (w1, Ok m1) ->
  cached num_parse args w i = Some data ->
  dict_get mag_ds i = Some r ->
  values r = values data ->
  exists r',
    cached num_parse args w1 i = Some data
    /\ dict_get m1 i = Some r'
    /\ values r' = values data.
Proof.
  intros Hit Hc Hr Hv.
  destruct (cached_file _ _ _ _ Hc) as (text & Hfile & Hload).
  assert (Hc1 : cached num_parse args w1 i = Some data).
  { apply (cached_of_file _ _ _ text); [| exact Hload].
    apply (iteration_files _ _ _ _ _ _ _ _ _ _ _ _ Hit _ _ Hfile). }
  destruct (Z.eq_dec j i) as [-> | Hne].
  - rewrite (iteration_cached _ _ _ _ _ _ _ _ _ _ _ Hfile), Hload in Hit.
    injection Hit as <- <-. exists data.
    split; [exact Hc | split; [apply dict_get_set | reflexivity]].
  - destruct (pass_sets_its_index _ _ _ _ _ _ _ _ Hit) as [x ->].
    exists r. rewrite (dict_get_set_ne _ _ _ _ Hne).
    split; [exact Hc1 | split; [exact Hr | exact Hv]].
Qed.

Lemma loop_keeps_agreement (args : InjectionArgs) (lcm : LightCurveModel)
    (injection_df : list (Z * loc)) :
  forall (w w1 : world scalar) (mag_ds m1 : ResultCollection num) (i : Z)
         (data r : gmap string (table num)),
    loop' args lcm w mag_ds injection_df = (w1, Ok m1) ->
    cached num_parse args w i = Some data ->
    dict_get mag_ds i = Some r ->
    values r = values data ->
    exists r',
      cached num_parse args w1 i = Some data
      /\ dict_get m1 i = Some r'
      /\ values r' = values data.
Proof.
  induction injection_df as [| [j row] rest IH];
    intros w w1 mag_ds m1 i data r Hrun Hc Hr Hv.
  - injection Hrun as <- <-. exists r. auto.
  - cbn [injections] in Hrun.
    destruct (pass' args lcm w mag_ds j row) as [w2 [m2 | e]] eqn:Hit;
      [| discriminate].
    destruct (pass_keeps_agreement _ _ _ _ _ _ _ _ _ _ _ Hit Hc Hr Hv)
      as (r2 & Hc2 & Hr2 & Hv2).
    exact (IH _ _ _ _ _ _ _ Hrun Hc2 Hr2 Hv2).
Qed.

(** After a loop that ends without an exception, every index of the table
    has an entry that agrees with its artifact. *)
Lemma loop_leaves_artifacts (args : InjectionArgs) (lcm : LightCurveModel)
    (injection_df : list (Z * loc)) :
  forall (w w1 : world scalar) (mag_ds m1 : ResultCollection num),
    loop' args lcm w mag_ds injection_df = (w1, Ok m1) ->
    forall i row, In (i, row) injection_df ->
      exists data r,
        cached num_parse args w1 i = Some data
        /\ dict_get m1 i = Some r
        /\ values r = values data.
Proof.
  induction injection_df as [| [j row'] rest IH];
    intros w w1 mag_ds m1 Hrun i row Hin; [contradiction |].
  cbn [injections] in Hrun.
  destruct (pass' args lcm w mag_ds j row') as [w2 [m2 | e]] eqn:Hit;
    [| discriminate].
  destruct Hin as [[= -> ->] | Hin].
  - destruct (pass_leaves_artifact _ _ _ _ _ _ _ _ Hit) as (data & r & Hc & Hr & Hv).
    destruct (loop_keeps_agreement _ _ _ _ _ _ _ _ _ _ Hrun Hc Hr Hv)
      as (r' & Hc' & Hr' & Hv').
    exists data, r'. auto.
  - exact (IH _ _ _ _ Hrun _ _ Hin).
Qed.

(** A loop over a table whose artifacts are all there and readable reads
    them and changes nothing. *)
Lemma loop_on_artifacts (args : InjectionArgs) (lcm : LightCurveModel)
    (injection_df : list (Z * loc)) (w : world scalar) :
  (forall i row, In (i, row) injection_df ->
                 is_Some (cached num_parse args w i)) ->
  forall mag_ds : ResultCollection num,
  exists m,
    loop' args lcm w mag_ds injection_df = (w, Ok m)
    /\ forall k,
        dict_get m k
        = if existsb (fun p => (fst p =? k)%Z) injection_df
          then cached num_parse args w k
          else dict_get mag_ds k.
Proof.
  induction injection_df as [| [i row] rest IH]; intros Hall mag_ds.
  - exists mag_ds. split; reflexivity.
  - destruct (Hall i row (or_introl eq_refl)) as [data Hc].
    destruct (cached_file _ _ _ _ Hc) as (text & Hfile & Hload).
    destruct (IH (fun i' row' Hin => Hall i' row' (or_intror Hin))
                 (dict_set mag_ds i data)) as (m & Hrun & Hget).
    exists m. split.
    + cbn [injections].
      rewrite (iteration_cached _ _ _ _ _ _ _ _ _ _ _ Hfile), Hload.
      exact Hrun.
    + intros k. rewrite Hget. cbn [existsb fst].
      destruct (existsb (fun p => (fst p =? k)%Z) rest);
        [rewrite orb_true_r; reflexivity |].
      rewrite orb_false_r.
      destruct (Z.eqb_spec i k) as [-> | Hne].
      * rewrite dict_get_set. symmetry. exact Hc.
      * apply dict_get_set_ne. exact Hne.
Qed.

Lemma existsb_index (injection_df : list (Z * loc)) (i : Z) (row : loc) :
  In (i, row) injection_df ->
  existsb (fun p => (fst p =? i)%Z) injection_df = true.
Proof.
  intros Hin. apply existsb_exists. exists (i, row).
  split; [exact Hin | apply Z.eqb_refl].
Qed.

(** X7: when the loop ends without an exception, every index of the
    table has an entry in mag_ds and an artifact in the output directory,
    and the artifact can be read and holds the values of the entry. *)
Theorem successful_run_covers_table :
  forall (args : InjectionArgs) (lcm : LightCurveModel)
         (injection_df : list (Z * loc)) (w w1 : world scalar)
         (mag_ds m1 : ResultCollection num),
    loop' args lcm w mag_ds injection_df = (w1, Ok m1) ->
    forall i row, In (i, row) injection_df ->
      exists text data r,
        files w1 !! injection_outfile args i = Some text
        /\ loads num_parse text = Ok data
        /\ dict_get m1 i = Some r
        /\ values r = values data.
Proof.
  intros args lcm injection_df w w1 mag_ds m1 Hrun i row Hin.
  destruct (loop_leaves_artifacts _ _ _ _ _ _ _ Hrun _ _ Hin)
    as (data & r & Hc & Hr & Hv).
  destruct (cached_file _ _ _ _ Hc) as (text & Hfile & Hload).
  exists text, data, r. auto.
Qed.

(** X8: a run can be resumed: after a loop that ended without an
    exception, the loop over the same table reads the artifacts, calls
    nothing, writes nothing, and gives every index of the table the
    values it had. *)
Theorem rerun_changes_nothing :
  forall (args : InjectionArgs) (lcm : LightCurveModel)
         (injection_df : list (Z * loc)) (w w1 : world scalar)
         (mag_ds m1 : ResultCollection num),
    loop' args lcm w mag_ds injection_df = (w1, Ok m1) ->
    forall mag_ds' : ResultCollection num,
    exists m2,
      loop' args lcm w1 mag_ds' injection_df = (w1, Ok m2)
      /\ forall i row, In (i, row) injection_df ->
           exists r1 r2,
             dict_get m1 i = Some r1
             /\ dict_get m2 i = Some r2
             /\ values r1 = values r2.
Proof.
  intros args lcm injection_df w w1 mag_ds m1 Hrun mag_ds'.
  pose proof (loop_leaves_artifacts _ _ _ _ _ _ _ Hrun) as Hall.
  destruct (loop_on_artifacts args lcm injection_df w1) with (mag_ds := mag_ds')
    as (m2 & Hrun2 & Hget).
  { intros i row Hin. destruct (Hall _ _ Hin) as (data & _ & Hc & _).
    exists data. exact Hc. }
  exists m2. split; [exact Hrun2 |].
  intros i row Hin. destruct (Hall _ _ Hin) as (data & r & Hc & Hr & Hv).
  exists r, data. split; [exact Hr |]. split; [| exact Hv].
  rewrite Hget, (existsb_index _ _ _ Hin). exact Hc.
Qed.

End ResumeFacts.

(** ** The matrix of the plot *)

Lemma data_out_rows_missing (args : Args) (st : list float)
    (mag_ds : ResultCollection float) (filt : string) :
  Exists (fun kr => snd kr !! filt = None) mag_ds ->
  exists e, Aggregation.data_out_rows args st mag_ds filt = Err e.
Proof.
  induction 1 as [[k r] rest Hnone | [k r] rest _ [e IH]]; simpl in *.
  - unfold Aggregation.data_out_row. rewrite Hnone. eexists. reflexivity.
  - destruct (Aggregation.data_out_row args st r filt) as [row | e'];
      simpl; [| eexists; reflexivity].
    rewrite IH. eexists. reflexivity.
Qed.

(** X11: the matrix of a filter cannot be made when there is no
    injection (ValueError of vstack) or when the result of some injection
    has no series for the filter; when it is the first injection that
    lacks the filter the exception is KeyError of the filter. *)
Theorem data_out_needs_every_series :
  forall (args : Args) (st : list float) (mag_ds : ResultCollection float)
         (filt : string),
    (mag_ds = [] ->
     Aggregation.data_out args st mag_ds filt
     = Err (ValueError "need at least one array to concatenate"))
    /\ (Exists (fun kr => snd kr !! filt = None) mag_ds ->
        is_ok (Aggregation.data_out args st mag_ds filt) = false)
    /\ (forall k r rest,
           mag_ds = (k, r) :: rest ->
           r !! filt = None ->
           Aggregation.data_out args st mag_ds filt = Err (KeyError filt)).
Proof.
  intros args st mag_ds filt. split; [| split].
  - intros ->. reflexivity.
  - intros Hex. unfold Aggregation.data_out.
    destruct (data_out_rows_missing args st mag_ds filt Hex) as [e ->].
    reflexivity.
  - intros k r rest -> Hnone. unfold Aggregation.data_out. simpl.
    unfold Aggregation.data_out_row. rewrite Hnone. reflexivity.
Qed.

Lemma data_out_rows_length (args : Args) (st : list float)
    (mag_ds : ResultCollection float) (filt : string) :
  forall rows,
    Aggregation.data_out_rows args st mag_ds filt = Ok rows ->
    length rows = length mag_ds.
Proof.
  induction mag_ds as [| [k r] rest IH]; simpl; intros rows.
  - intros [= <-]. reflexivity.
  - destruct (Aggregation.data_out_row args st r filt) as [row | e];
      simpl; [| discriminate].
    destruct (Aggregation.data_out_rows args st rest filt) as [rows' | e];
      simpl; [| discriminate].
    intros [= <-]. simpl. f_equal. apply IH. reflexivity.
Qed.

Lemma data_out_row_resampled_length (args : Args) (st : list float)
    (r : gmap string (table float)) (filt : string) (row : list float) :
  Aggregation.resampled args = true ->
  Aggregation.data_out_row args st r filt = Ok row ->
  length row = length st.
Proof.
  intros Hflag. unfold Aggregation.data_out_row.
  destruct (r !! filt) as [t |]; [| discriminate].
  destruct (Aggregation.np_array t) as [data_set | e]; simpl; [| discriminate].
  rewrite Hflag.
  destruct (Numpy.column 0 data_set) as [x | e]; simpl; [| discriminate].
  destruct (Numpy.column 1 data_set) as [y | e]; simpl; [| discriminate].
  destruct (Scipy.interp1d x y) as [f | e]; simpl; [| discriminate].
  intros [= <-]. apply length_map.
Qed.

Lemma data_out_rows_resampled_length (args : Args) (st : list float)
    (mag_ds : ResultCollection float) (filt : string) :
  Aggregation.resampled args = true ->
  forall rows,
    Aggregation.data_out_rows args st mag_ds filt = Ok rows ->
    Forall (fun row => length row = length st) rows.
Proof.
  intros Hflag. induction mag_ds as [| [k r] rest IH]; simpl; intros rows.
  - intros [= <-]. constructor.
  - destruct (Aggregation.data_out_row args st r filt) as [row | e] eqn:Hrow;
      simpl; [| discriminate].
    destruct (Aggregation.data_out_rows args st rest filt) as [rows' | e];
      simpl; [| discriminate].
    intros [= <-]. constructor.
    + exact (data_out_row_resampled_length _ _ _ _ _ Hflag Hrow).
    + apply IH. reflexivity.
Qed.

Lemma vstack_ok (rows d : list (list float)) :
  Numpy.vstack rows = Ok d ->
  d = rows /\ exists r rest, d = r :: rest
                             /\ Forall (fun r' => length r' = length r) d.
Proof.
  unfold Numpy.vstack. destruct rows as [| r rest]; [discriminate |].
  destruct (forallb _ (r :: rest)) eqn:Hall; [| discriminate].
  intros [= <-]. split; [reflexivity |]. exists r, rest.
  split; [reflexivity |].
  apply Forall_forall. intros r' Hin.
  rewrite forallb_forall in Hall. apply Nat.eqb_eq. apply Hall.
  apply list_elem_of_In. exact Hin.
Qed.

(** X13: when the matrix of a filter can be made it has one row per
    injection, at least one row, and all its rows have one length; under
    an active flag that length is the length of the time grid. *)
Theorem data_out_shape :
  forall (args : Args) (st : list float) (mag_ds : ResultCollection float)
         (filt : string) (d : list (list float)),
    Aggregation.data_out args st mag_ds filt = Ok d ->
    length d = length mag_ds
    /\ (0 < length d)%nat
    /\ (exists n, Forall (fun row => length row = n) d)
    /\ (Aggregation.resampled args = true ->
        Forall (fun row => length row = length st) d).
Proof.
  intros args st mag_ds filt d. unfold Aggregation.data_out.
  destruct (Aggregation.data_out_rows args st mag_ds filt) as [rows | e] eqn:Hrows;
    simpl; [| discriminate].
  intros Hstack. destruct (vstack_ok _ _ Hstack) as (-> & r & rest & Hd & Hlen).
  split; [exact (data_out_rows_length _ _ _ _ _ Hrows) |].
  split; [rewrite Hd; simpl; lia |].
  split; [exists (length r); exact Hlen |].
  intros Hflag. exact (data_out_rows_resampled_length _ _ _ _ Hflag _ Hrows).
Qed.

Lemma data_out_shape_witness :
  length [[(-14)%float; (-15)%float; (-16)%float; (-17)%float; (-18)%float]]
  = length [(0, two_of_five)]
  /\ (0 < length [[(-14)%float; (-15)%float; (-16)%float; (-17)%float;
                   (-18)%float]])%nat
  /\ (exists n,
         Forall (fun row => length row = n)
                [[(-14)%float; (-15)%float; (-16)%float; (-17)%float;
                  (-18)%float]])
  /\ (Aggregation.resampled
        (with_flags (default_args "Bu2019lm" "out" "run")
                    true None false false) = true ->
      Forall (fun row => length row = length five_times)
             [[(-14)%float; (-15)%float; (-16)%float; (-17)%float;
               (-18)%float]]).
Proof.
  apply (data_out_shape
           (with_flags (default_args "Bu2019lm" "out" "run")
                       true None false false)
           five_times [(0, two_of_five)] "g").
  vm_compute. reflexivity.
Defined.

(** Without a flag a row is the magnitude column of the series, one
    magnitude per point. *)
Lemma data_out_row_raw_length (args : Args) (st : list float)
    (r : gmap string (table float)) (filt : string) (row : list float) :
  Aggregation.resampled args = false ->
  Aggregation.data_out_row args st r filt = Ok row ->
  exists t, r !! filt = Some t /\ length row = length (rows_of t).
Proof.
  intros Hflag. unfold Aggregation.data_out_row.
  destruct (r !! filt) as [t |]; [| discriminate].
  destruct (Aggregation.np_array t) as [data_set | e] eqn:Harr;
    simpl; [| discriminate].
  rewrite Hflag. intros Hcol. exists t. split; [reflexivity |].
  rewrite (column_length _ _ _ Hcol).
  unfold Aggregation.np_array in Harr.
  destruct t as [rows | [| r0 rows]]; try discriminate;
    injection Harr as <-; reflexivity.
Qed.

(** X12: with no flag active the matrix can only be made when the series
    of the filter have the same number of points in all injections. *)
Theorem raw_stack_needs_equal_series :
  forall (args : Args) (st : list float) (mag_ds : ResultCollection float)
         (filt : string) (d : list (list float)),
    Aggregation.resampled args = false ->
    Aggregation.data_out args st mag_ds filt = Ok d ->
    exists n,
      Forall (fun kr => exists t, snd kr !! filt = Some t
                                  /\ length (rows_of t) = n) mag_ds.
Proof.
  intros args st mag_ds filt d Hflag. unfold Aggregation.data_out.
  destruct (Aggregation.data_out_rows args st mag_ds filt) as [rows | e] eqn:Hrows;
    simpl; [| discriminate].
  intros Hstack. destruct (vstack_ok _ _ Hstack) as (-> & r & rest & _ & Hlen).
  exists (length r). clear Hstack.
  revert rows Hrows Hlen.
  induction mag_ds as [| [k res] more IH]; intros rows Hrows Hlen;
    [constructor |].
  simpl in Hrows.
  destruct (Aggregation.data_out_row args st res filt) as [row | e] eqn:Hrow;
    simpl in Hrows; [| discriminate].
  destruct (Aggregation.data_out_rows args st more filt) as [rows' | e];
    simpl in Hrows; [| discriminate].
  injection Hrows as <-. apply Forall_cons in Hlen as [Hrow_len Hrest].
  constructor.
  - destruct (data_out_row_raw_length _ _ _ _ _ Hflag Hrow) as (t & Ht & Hl).
    exists t. split; [exact Ht | congruence].
  - apply (IH rows'); [reflexivity | exact Hrest].
Qed.

Lemma raw_stack_needs_equal_series_witness :
  exists n,
    Forall (fun kr => exists t, snd kr !! "g" = Some t
                                /\ length (rows_of t) = n)
           (three_injections [0%float; 1%float; 2%float]).
Proof.
  apply (raw_stack_needs_equal_series
           (default_args "Bu2019lm" "out" "run") [0%float; 1%float; 2%float]
           (three_injections [0%float; 1%float; 2%float]) "g"
           [[(-15)%float; (-15)%float; (-15)%float];
            [(-16)%float; (-16)%float; (-16)%float];
            [(-17)%float; (-17)%float; (-17)%float]]);
    reflexivity.
Defined.

(** ** Histograms and percentiles of the plot *)

Lemma filter_length_insert_by {A} (key : A -> float) (f : A -> bool)
    (x : A) (l : list A) :
  length (List.filter f (Numpy.insert_by key x l))
  = length (List.filter f (x :: l)).
Proof.
  induction l as [| y l IH]; [reflexivity |].
  simpl. destruct (Numpy.sort_le (key y) (key x)); [| reflexivity].
  simpl in *. destruct (f y), (f x); simpl in *; lia.
Qed.

Lemma filter_length_sort_by {A} (key : A -> float) (f : A -> bool)
    (l : list A) :
  length (List.filter f (Numpy.sort_by key l)) = length (List.filter f l).
Proof.
  unfold Numpy.sort_by.
  assert (H : forall acc,
             length (List.filter f
                       (fold_left (fun acc x => Numpy.insert_by key x acc) l acc))
             = (length (List.filter f l) + length (List.filter f acc))%nat).
  { induction l as [| x l IH]; intros acc; [reflexivity |].
    simpl fold_left. rewrite IH, filter_length_insert_by.
    simpl. destruct (f x); simpl; lia. }
  rewrite H. simpl. lia.
Qed.

(** Sorting keeps the number of items. *)
Lemma sort_by_length {A} (key : A -> float) (l : list A) :
  length (Numpy.sort_by key l) = length l.
Proof.
  assert (Hall : forall l' : list A, List.filter (fun _ => true) l' = l').
  { induction l' as [| a l' IH]; simpl; [| rewrite IH]; reflexivity. }
  rewrite <- (Hall (Numpy.sort_by key l)), filter_length_sort_by, Hall.
  reflexivity.
Qed.

Lemma sum_diff (a d : Z) (l : list Z) :
  fold_right Z.add 0 (Numpy.diff (a :: l)) = List.last (a :: l) d - a.
Proof.
  revert a. induction l as [| b l IH]; intros a; [simpl; lia |].
  change (Numpy.diff (a :: b :: l)) with ((b - a) :: Numpy.diff (b :: l)).
  cbn [fold_right]. rewrite IH.
  change (List.last (a :: b :: l) d) with (List.last (b :: l) d). lia.
Qed.

Lemma diff_length_cons (a : Z) (l : list Z) :
  length (Numpy.diff (a :: l)) = length l.
Proof.
  revert a. induction l as [| b l IH]; intros a; [reflexivity |].
  change (Numpy.diff (a :: b :: l)) with ((b - a) :: Numpy.diff (b :: l)).
  cbn [length]. rewrite IH. reflexivity.
Qed.

Lemma diff_length (l : list Z) :
  length (Numpy.diff l) = (length l - 1)%nat.
Proof.
  destruct l as [| a l]; [reflexivity |].
  rewrite diff_length_cons. simpl. lia.
Qed.

Lemma histogram_cum (x : list float) (edges : list float) (e : float) :
  Numpy.histogram x (edges ++ [e])
  = Numpy.diff
      (map (fun e' => Z.of_nat (Numpy.searchsorted_left (Numpy.sort x) e'))
           edges
       ++ [Z.of_nat (Numpy.searchsorted_right (Numpy.sort x) e)])%list.
Proof.
  unfold Numpy.histogram. rewrite removelast_last, last_snoc. reflexivity.
Qed.

Lemma histogram_length (x : list float) (edges : list float) (e : float) :
  length (Numpy.histogram x (edges ++ [e])) = length edges.
Proof.
  rewrite histogram_cum, diff_length, length_app, length_map. simpl. lia.
Qed.

Lemma bins_split :
  Aggregation.bins
  = ((-20)%float :: removelast (tl Aggregation.bins) ++ [1%float])%list.
Proof. vm_compute. reflexivity. Qed.

(** X15: the counts of a histogram add up to the number of values that
    are at most the last edge less the number of values below the first
    edge; with the bins of the plot, from -20 to 1, that is no more than
    the number of values, a value that is not a number counting
    nowhere. *)
Theorem histogram_total :
  (forall (x : list float) (e0 eN : float) (mid : list float),
      fold_right Z.add 0 (Numpy.histogram x (e0 :: mid ++ [eN]))
      = Z.of_nat (length (List.filter (fun v => PrimFloat.leb v eN) x))
        - Z.of_nat (length (List.filter (fun v => PrimFloat.ltb v e0) x)))
  /\ (forall x : list float,
         fold_right Z.add 0 (Aggregation.return_hist x)
         = Z.of_nat (length (List.filter (fun v => PrimFloat.leb v 1%float) x))
           - Z.of_nat
               (length (List.filter (fun v => PrimFloat.ltb v (-20)%float) x))
         /\ fold_right Z.add 0 (Aggregation.return_hist x)
            <= Z.of_nat (length x)
         /\ fold_right Z.add 0
              (Aggregation.return_hist (PrimFloat.nan :: x))
            = fold_right Z.add 0 (Aggregation.return_hist x)).
Proof.
  assert (Hgen : forall (x : list float) (e0 eN : float) (mid : list float),
      fold_right Z.add 0 (Numpy.histogram x (e0 :: mid ++ [eN]))
      = Z.of_nat (length (List.filter (fun v => PrimFloat.leb v eN) x))
        - Z.of_nat (length (List.filter (fun v => PrimFloat.ltb v e0) x))).
  { intros x e0 eN mid.
    change (e0 :: mid ++ [eN])%list with ((e0 :: mid) ++ [eN])%list.
    rewrite histogram_cum. cbn [map app]. rewrite (sum_diff _ 0).
    rewrite app_comm_cons, List.last_last.
    unfold Numpy.searchsorted_left, Numpy.searchsorted_right, Numpy.sort.
    rewrite !filter_length_sort_by. reflexivity. }
  split; [exact Hgen |].
  intros x. unfold Aggregation.return_hist. rewrite bins_split.
  rewrite !Hgen. split; [reflexivity |]. split.
  - pose proof (List.filter_length_le (fun v => PrimFloat.leb v 1%float) x).
    lia.
  - reflexivity.
Qed.

(** X14: under an active flag the percentile series and the histogram
    image have one entry per grid time, and every histogram of the image
    has the 49 bins of the plot; so they can be drawn against the grid. *)
Theorem plot_shapes :
  forall (args : Args) (st : list float) (mag_ds : ResultCollection float)
         (filt : string) (d : list (list float)),
    Aggregation.data_out args st mag_ds filt = Ok d ->
    Aggregation.resampled args = true ->
    (forall q, length (Aggregation.nanpercentile d q) = length st)
    /\ length (Aggregation.hist d) = length st
    /\ length (Aggregation.hist_shown (Aggregation.hist d)) = length st
    /\ Forall (fun h => length h = 49%nat) (Aggregation.hist d).
Proof.
  intros args st mag_ds filt d Hd Hflag.
  assert (Hcols : length (Numpy.transpose d) = length st).
  { unfold Aggregation.data_out in Hd.
    destruct (Aggregation.data_out_rows args st mag_ds filt) as [rows | e] eqn:Hrows;
      simpl in Hd; [| discriminate].
    destruct (vstack_ok _ _ Hd) as (-> & r & rest & Hshape & _).
    pose proof (data_out_rows_resampled_length _ _ _ _ Hflag _ Hrows) as Hlen.
    rewrite Hshape in Hlen |- *. apply Forall_cons in Hlen as [Hr _].
    unfold Numpy.transpose. rewrite length_map, length_seq. exact Hr. }
  split; [| split; [| split]].
  - intros q. unfold Aggregation.nanpercentile. rewrite length_map. exact Hcols.
  - unfold Aggregation.hist. rewrite length_map. exact Hcols.
  - unfold Aggregation.hist_shown, Aggregation.hist.
    rewrite !length_map. exact Hcols.
  - unfold Aggregation.hist. apply Forall_forall. intros h Hin.
    apply list_elem_of_In, in_map_iff in Hin as (col & <- & _).
    unfold Aggregation.return_hist. rewrite bins_split.
    change ((-20)%float :: removelast (tl Aggregation.bins) ++ [1%float])%list
      with (((-20)%float :: removelast (tl Aggregation.bins)) ++ [1%float])%list.
    rewrite histogram_length. vm_compute. reflexivity.
Qed.

Lemma plot_shapes_witness :
  (forall q,
      length (Aggregation.nanpercentile
                [[(-14)%float; (-15)%float; (-16)%float; (-17)%float;
                  (-18)%float]] q)
      = length five_times)
  /\ length (Aggregation.hist
               [[(-14)%float; (-15)%float; (-16)%float; (-17)%float;
                 (-18)%float]])
     = length five_times
  /\ length (Aggregation.hist_shown
               (Aggregation.hist
                  [[(-14)%float; (-15)%float; (-16)%float; (-17)%float;
                    (-18)%float]]))
     = length five_times
  /\ Forall (fun h => length h = 49%nat)
            (Aggregation.hist
               [[(-14)%float; (-15)%float; (-16)%float; (-17)%float;
                 (-18)%float]]).
Proof.
  apply (plot_shapes
           (with_flags (default_args "Bu2019lm" "out" "run")
                       true None false false)
           five_times [(0, two_of_five)] "g").
  - vm_compute. reflexivity.
  - reflexivity.
Defined.

(** X16: a time column in which no injection has a number, an empty
    column included, has the percentile nan, whatever the percent. *)
Theorem nanpercentile_of_no_numbers :
  forall (col : list float) (q : float),
    forallb PrimFloat.is_nan col = true ->
    Numpy.nanpercentile_1d col q = PrimFloat.nan.
Proof.
  intros col q Hall. unfold Numpy.nanpercentile_1d.
  replace (List.filter (fun x => negb (PrimFloat.is_nan x)) col) with (@nil float);
    [reflexivity |].
  induction col as [| v col IH]; [reflexivity |].
  simpl in Hall. apply andb_prop in Hall as [Hv Hall].
  simpl. rewrite Hv. simpl. exact (IH Hall).
Qed.

Lemma nanpercentile_of_no_numbers_witness :
  Numpy.nanpercentile_1d [PrimFloat.nan; PrimFloat.nan] 50%float
  = PrimFloat.nan.
Proof.
  apply nanpercentile_of_no_numbers. reflexivity.
Defined.


(** ** The loop on the small table *)

Lemma artifacts_never_overwritten_witness :
  files (fst (Rerun.run Rerun.resumed)) !! "out/7.dat" = Some "{}".
Proof.
  refine (artifacts_never_overwritten
            Example.to_mjd Example.synthesis int_repr int_parse
            (injection_args Example.args) Example.model Rerun.table
            Rerun.resumed _ [] (snd (Rerun.run Rerun.resumed)) _
            "out/7.dat" "{}" _).
  - apply surjective_pairing.
  - reflexivity.
Defined.

Lemma unreadable_artifact_ends_the_loop_witness :
  Rerun.run Rerun.broken
  = (Rerun.broken, Err (JSONDecodeError "Expecting value")).
Proof.
  refine (proj2 (unreadable_artifact_ends_the_loop
                   Example.to_mjd Example.synthesis int_repr int_parse
                   (injection_args Example.args) Example.model Rerun.broken
                   [] 7 1%positive [] ""
                   (JSONDecodeError "Expecting value") _) _);
    reflexivity.
Defined.

Lemma cached_result_ignores_parameters_witness :
  iteration Example.to_mjd Example.synthesis int_repr int_parse
    (injection_args Example.args) Example.model Rerun.resumed [] 7 1%positive
  = (Rerun.resumed, rmap (dict_set [] 7) (loads int_parse "{}"))
  /\ iteration Example.to_mjd Example.synthesis int_repr int_parse
       (injection_args (default_args "salt2" "out" "other"))
       (SupernovaLightCurveModel [] "salt2") Rerun.resumed [] 7 2%positive
     = (Rerun.resumed, rmap (dict_set [] 7) (loads int_parse "{}"))
  /\ (forall data,
         loads int_parse "{}" = Ok data ->
         exists m,
           snd (iteration Example.to_mjd Example.synthesis int_repr int_parse
                  (injection_args (default_args "salt2" "out" "other"))
                  (SupernovaLightCurveModel [] "salt2") Rerun.resumed []
                  7 2%positive) = Ok m
           /\ dict_get m 7 = Some data).
Proof.
  apply (cached_result_ignores_parameters
           Example.to_mjd Example.synthesis int_repr int_parse
           (injection_args Example.args)
           (injection_args (default_args "salt2" "out" "other"))
           Example.model (SupernovaLightCurveModel [] "salt2")
           Rerun.resumed [] 7 1%positive 2%positive "{}");
    reflexivity.
Defined.

Lemma one_file_per_computation_witness :
  (size (files (fst (Rerun.run (Example.start Example.row_with_time))))
   + length (stdout (Example.start Example.row_with_time))
   = size (files (Example.start Example.row_with_time))
     + length (stdout (fst (Rerun.run (Example.start Example.row_with_time))))
   /\ length (synth_calls
                (fst (Rerun.run (Example.start Example.row_with_time))))
      <= length (synth_calls (Example.start Example.row_with_time))
         + length Rerun.table
   /\ length (synth_calls (Example.start Example.row_with_time))
      <= length (synth_calls
                   (fst (Rerun.run (Example.start Example.row_with_time))))
   /\ (is_ok (snd (Rerun.run (Example.start Example.row_with_time))) = true ->
       length (synth_calls
                 (fst (Rerun.run (Example.start Example.row_with_time))))
       + size (files (Example.start Example.row_with_time))
       = length (synth_calls (Example.start Example.row_with_time))
         + size (files
                   (fst (Rerun.run (Example.start Example.row_with_time))))))%nat.
Proof.
  apply (one_file_per_computation
           Example.to_mjd Example.synthesis int_repr int_parse
           (injection_args Example.args) Example.model Rerun.table
           (Example.start Example.row_with_time) _ []).
  apply surjective_pairing.
Defined.

Lemma main_rejects_before_injections_witness :
  exists e,
    main Example.to_mjd Example.synthesis int_repr int_parse
         (with_joint (default_args "TrPi2018" "out" "run"))
         (Example.start Example.row_with_time) Rerun.table
    = (Example.start Example.row_with_time, Err e)
    /\ (is_ok (sample_times (with_joint (default_args "TrPi2018" "out" "run")))
        = true ->
        e = AssertionError "TrPi2018 is not a kilonova / supernova model").
Proof.
  apply (main_rejects_before_injections
           Example.to_mjd Example.synthesis int_repr int_parse
           (with_joint (default_args "TrPi2018" "out" "run"))
           (Example.start Example.row_with_time) Rerun.table);
    reflexivity.
Defined.

Lemma successful_run_covers_table_witness :
  exists text data r,
    files (fst (Rerun.run (Example.start Example.row_with_time)))
    !! injection_outfile (injection_args Example.args) 7 = Some text
    /\ loads int_parse text = Ok data
    /\ dict_get (dict_set [] 7 Example.data) 7 = Some r
    /\ values r = values data.
Proof.
  refine (successful_run_covers_table
            Example.to_mjd Example.synthesis int_repr int_parse
            int_parse_repr int_repr_ok
            (injection_args Example.args) Example.model Rerun.table
            (Example.start Example.row_with_time)
            (fst (Rerun.run (Example.start Example.row_with_time)))
            [] (dict_set [] 7 Example.data) _ 7 1%positive _).
  - vm_compute. reflexivity.
  - left. reflexivity.
Defined.

Lemma rerun_changes_nothing_witness :
  exists m2,
    Rerun.run (fst (Rerun.run (Example.start Example.row_with_time)))
    = (fst (Rerun.run (Example.start Example.row_with_time)), Ok m2)
    /\ forall i row, In (i, row) Rerun.table ->
         exists r1 r2,
           dict_get (dict_set [] 7 Example.data) i = Some r1
           /\ dict_get m2 i = Some r2
           /\ values r1 = values r2.
Proof.
  refine (rerun_changes_nothing
            Example.to_mjd Example.synthesis int_repr int_parse
            int_parse_repr int_repr_ok
            (injection_args Example.args) Example.model Rerun.table
            (Example.start Example.row_with_time)
            (fst (Rerun.run (Example.start Example.row_with_time)))
            [] (dict_set [] 7 Example.data) _ []).
  vm_compute. reflexivity.
Defined.
